(** * CloudComments: the abuse-and-moderation pipeline of [src/index.ts]

    A shallow embedding of the rate limiter, the spam scorer, the comment
    submission handler and the like and flag handlers, together with the
    properties the specification states about them.

    Conventions.
    - JavaScript numbers that hold integers (timestamps in milliseconds,
      scores, counters, row ids) are [Z].
    - A JavaScript string that the code inspects character by character (the
      comment content) is the list of its UTF-16 code units, [list N]; strings
      that are only stored or compared are [string].
    - [Date.now()] and [new Date()] are explicit clock readings passed to the
      function that performs them.
    - The D1 database is a record of tables, each table the list of its rows
      in insertion order; a prepared statement is a function on that record. *)

From Stdlib Require Import ZArith NArith List Bool Ascii String Lia.
From stdpp Require Import base option list gmap strings.

Local Open Scope Z_scope.

(** ** RateLimiter (Durable Object) *)

Module RateLimiter.

(** [new Response(body, { status })]: only the status is observed. *)
Record Response := mkResponse { body : string; status : Z }.

Definition TooMany : Response := mkResponse "Too many requests" 429.
Definition OK : Response := mkResponse "OK" 200.

(** [timestamp => now - timestamp < 60000] *)
Definition recent (now timestamp : Z) : bool := now - timestamp <? 60000.

(** [private requests: Map<string, number[]>] *)
Abbreviation Requests := (gmap string (list Z)).

(** [cleanOldEntries()], with [now] its reading of the clock: every key
    whose filtered list is empty is deleted, every other key keeps the
    filtered list. *)
Definition cleanOldEntries (now : Z) (requests : Requests) : Requests :=
  omap (fun reqs =>
          let filtered := List.filter (recent now) reqs in
          if (length filtered =? 0)%nat then None else Some filtered)
       requests.

(** [fetch(request)]: [key] is [url.pathname], [now_clean] the clock as read
    inside [cleanOldEntries] and [now] the clock as read by [fetch] itself. *)
Definition fetch (now_clean now : Z) (key : string) (requests : Requests)
  : Response * Requests :=
  let requests := cleanOldEntries now_clean requests in
  let reqs := default [] (requests !! key) in
  let recentRequests := List.filter (recent now) reqs in
  if (60 <=? length recentRequests)%nat then (TooMany, requests)
  else (OK, <[key := recentRequests ++ [now]]> requests).

(** The timestamps on record for a key: [this.requests.get(key) || []]. *)
Definition window (requests : Requests) (key : string) : list Z :=
  default [] (requests !! key).

(** A sequence of calls for one key, each with its two clock readings. *)
Fixpoint run (key : string) (calls : list (Z * Z)) (requests : Requests)
  : list Response * Requests :=
  match calls with
  | [] => ([], requests)
  | (now_clean, now) :: calls' =>
      let '(r, requests') := fetch now_clean now key requests in
      let '(rs, requests'') := run key calls' requests' in
      (r :: rs, requests'')
  end.

(** The admission rule in the words of the specification: timestamps older
    than [now - 60s] are dropped, that is, a timestamp is kept when it is
    not older than [now - 60000]. *)
Definition spec_kept (now timestamp : Z) : bool := now - 60000 <=? timestamp.

Definition spec_allows (now : Z) (key : string) (requests : Requests) : bool :=
  negb (60 <=? length (List.filter (spec_kept now) (window requests key)))%nat.

End RateLimiter.

(** ** The regular expressions of the spam scorer

    A backtracking matcher for the fragment of ECMAScript regular expressions
    that [calculateSpamScore] uses: character classes, [\b], sequence,
    alternation with priority to the left, and the greedy quantifiers [?] and
    [*] (so [+] and [{5,}] as well). A string is the list of its UTF-16 code
    units. *)

Module RegExp.

Inductive regex : Type :=
| Class (p : N -> bool)
| WordBoundary
| Empty
| Seq (r1 r2 : regex)
| Alt (r1 r2 : regex)
| Opt (r : regex)
| Star (r : regex).

Definition in_range (lo hi c : N) : bool := ((lo <=? c) && (c <=? hi))%N.

(** [\w] without the [u] flag: [A-Za-z0-9_]. *)
Definition is_word_char (c : N) : bool :=
  in_range 97 122 c || in_range 65 90 c || in_range 48 57 c || (c =? 95)%N.

(** [\s]: WhiteSpace and LineTerminator code units. *)
Definition is_space (c : N) : bool :=
  in_range 9 13 c || (c =? 32)%N || (c =? 160)%N || (c =? 5760)%N
  || in_range 8192 8202 c || (c =? 8232)%N || (c =? 8233)%N || (c =? 8239)%N
  || (c =? 8287)%N || (c =? 12288)%N || (c =? 65279)%N.

(** IsWordChar(e): false before the start and at the end of the input. *)
Definition word_at (s : list N) (e : nat) : bool :=
  match s !! e with Some c => is_word_char c | None => false end.

Definition at_boundary (s : list N) (i : nat) : bool :=
  xorb (match i with O => false | S j => word_at s j end) (word_at s i).

(** RepeatMatcher for a greedy [*]: [m] matches the quantified atom; an
    iteration that consumes nothing is rejected; [n] bounds the number of
    iterations, each of which consumes at least one code unit. *)
Fixpoint repeat_star (m : nat -> (nat -> option nat) -> option nat)
  (k : nat -> option nat) (n : nat) (i : nat) : option nat :=
  match n with
  | O => k i
  | S n' =>
      match m i (fun j => if (i <? j)%nat then repeat_star m k n' j else None) with
      | Some e => Some e
      | None => k i
      end
  end.

(** [rmatch r s i k]: match [r] at index [i] of [s], then continue with [k];
    the result is the end index of the first successful alternative. *)
Fixpoint rmatch (r : regex) (s : list N) (i : nat) (k : nat -> option nat)
  : option nat :=
  match r with
  | Class p =>
      match s !! i with
      | Some c => if p c then k (S i) else None
      | None => None
      end
  | WordBoundary => if at_boundary s i then k i else None
  | Empty => k i
  | Seq r1 r2 => rmatch r1 s i (fun j => rmatch r2 s j k)
  | Alt r1 r2 =>
      match rmatch r1 s i k with
      | Some e => Some e
      | None => rmatch r2 s i k
      end
  | Opt r1 =>
      match rmatch r1 s i (fun j => if (i <? j)%nat then k j else None) with
      | Some e => Some e
      | None => k i
      end
  | Star r1 => repeat_star (rmatch r1 s) k (length s - i) i
  end.

Definition Plus (r : regex) : regex := Seq r (Star r).

Fixpoint AtLeast (n : nat) (r : regex) : regex :=
  match n with
  | O => Star r
  | S n' => Seq r (AtLeast n' r)
  end.

Fixpoint Alts (r : regex) (rs : list regex) : regex :=
  match rs with
  | [] => r
  | r' :: rs' => Alt r (Alts r' rs')
  end.

(** One pattern character. Under the [i] flag a letter matches both of its
    cases; no code unit above 127 canonicalizes to an ASCII letter. *)
Definition Char (ignoreCase : bool) (a : ascii) : regex :=
  let c := N_of_ascii a in
  if ignoreCase && in_range 97 122 c then
    Class (fun d => (d =? c)%N || (d =? c - 32)%N)
  else if ignoreCase && in_range 65 90 c then
    Class (fun d => (d =? c)%N || (d =? c + 32)%N)
  else Class (fun d => (d =? c)%N).

Fixpoint Lit (ignoreCase : bool) (w : string) : regex :=
  match w with
  | EmptyString => Empty
  | String a w' => Seq (Char ignoreCase a) (Lit ignoreCase w')
  end.

(** RegExpBuiltinExec: the first index at or after [i] where [r] matches,
    with the end of that match. *)
Fixpoint search (fuel : nat) (r : regex) (s : list N) (i : nat)
  : option (nat * nat) :=
  match fuel with
  | O => None
  | S fuel' =>
      match rmatch r s i Some with
      | Some e => Some (i, e)
      | None => search fuel' r s (S i)
      end
  end.

Definition exec (r : regex) (s : list N) (lastIndex : nat) : option (nat * nat) :=
  search (S (length s) - lastIndex) r s lastIndex.

(** The matches a global regular expression finds, left to right; after an
    empty match [lastIndex] advances by one. *)
Fixpoint matches_from (fuel : nat) (r : regex) (s : list N) (lastIndex : nat)
  : list (nat * nat) :=
  match fuel with
  | O => []
  | S fuel' =>
      match exec r s lastIndex with
      | None => []
      | Some (i, e) =>
          (i, e) :: matches_from fuel' r s (if (e =? i)%nat then S i else e)
      end
  end.

(** [s.match(r)] for [r] with the [g] flag: [null] when nothing matches,
    otherwise the array of the matches. *)
Definition js_match (r : regex) (s : list N) : option (list (nat * nat)) :=
  match matches_from (S (S (length s))) r s 0 with
  | [] => None
  | ms => Some ms
  end.

(** Two continuations are alike from [i] on when they agree at [i] and at
    every later index inside the string. *)
Definition alike (s : list N) (i : nat) (k1 k2 : nat -> option nat) : Prop :=
  forall j, (i <= j)%nat -> (j <= length s)%nat \/ j = i -> k1 j = k2 j.

(** The code units of an ASCII literal. *)
Definition units (w : string) : list N :=
  List.map N_of_ascii (list_ascii_of_string w).

End RegExp.

(** ** Rows of the database ([interface User], [Comment], [Site] and the
    tables of the schema); the columns the modelled handlers never touch are
    left out. *)

Inductive Role : Type := RoleUser | RoleModerator | RoleAdmin.

Inductive Status : Type := pending | approved | spam | deleted.

Module User.
(** [created_at] is the time value of [new Date(created_at)], [None] when the
    stored text is not a date ([getTime()] is then [NaN]). *)
Record t : Type := mk {
  id : Z;
  email : string;
  name : string;
  role : Role;
  email_notifications : bool;
  created_at : option Z;
  is_banned : bool;
  reputation : Z
}.

Definition set_reputation (f : Z -> Z) (u : t) : t :=
  mk (id u) (email u) (name u) (role u) (email_notifications u)
     (created_at u) (is_banned u) (f (reputation u)).
End User.

Module Site.
Record t : Type := mk {
  id : Z;
  user_id : Z;
  domain : string;
  name : string;
  api_key : string;
  webhook_url : option string;
  moderation_enabled : bool;
  auto_approve_threshold : Z;
  spam_filter_enabled : bool;
  require_auth : bool;
  total_comments : Z
}.

Definition set_total_comments (f : Z -> Z) (s : t) : t :=
  mk (id s) (user_id s) (domain s) (name s) (api_key s) (webhook_url s)
     (moderation_enabled s) (auto_approve_threshold s)
     (spam_filter_enabled s) (require_auth s) (f (total_comments s)).
End Site.

Module Comment.
Record t : Type := mk {
  id : Z;
  site_id : Z;
  post_slug : string;
  post_title : option string;
  user_id : Z;
  parent_id : option Z;
  content : list N;
  status : Status;
  spam_score : Z;
  ip_address : string;
  user_agent : string;
  created_at : Z;
  updated_at : Z;
  likes : Z;
  flags : Z
}.

Definition set_likes (f : Z -> Z) (c : t) : t :=
  mk (id c) (site_id c) (post_slug c) (post_title c) (user_id c)
     (parent_id c) (content c) (status c) (spam_score c) (ip_address c)
     (user_agent c) (created_at c) (updated_at c) (f (likes c)) (flags c).

Definition set_flags (f : Z -> Z) (c : t) : t :=
  mk (id c) (site_id c) (post_slug c) (post_title c) (user_id c)
     (parent_id c) (content c) (status c) (spam_score c) (ip_address c)
     (user_agent c) (created_at c) (updated_at c) (likes c) (f (flags c)).

Definition set_status (st : Status) (c : t) : t :=
  mk (id c) (site_id c) (post_slug c) (post_title c) (user_id c)
     (parent_id c) (content c) st (spam_score c) (ip_address c)
     (user_agent c) (created_at c) (updated_at c) (likes c) (flags c).
End Comment.

(** A row of [comment_likes]; its surrogate [id] is never read. *)
Module Like.
Record t : Type := mk { comment_id : Z; user_id : Z; created_at : Z }.
End Like.

(** A row of [comment_flags]; its surrogate [id] is never read. *)
Module Flag.
Record t : Type := mk {
  comment_id : Z; user_id : Z; reason : string; created_at : Z
}.
End Flag.

(** ** The D1 database

    [comments_seq] is the AUTOINCREMENT counter of [comments], whose next
    value is the [last_row_id] of an insert. Foreign keys are not modelled:
    an insert the model accepts may be refused by the store when it refers to
    a missing row, so the model has every run of the program and possibly
    more. *)

Module DB.
Record t : Type := mk {
  users : list User.t;
  sites : list Site.t;
  comments : list Comment.t;
  comments_seq : Z;
  comment_likes : list Like.t;
  comment_flags : list Flag.t
}.

(** [SELECT ... WHERE w] followed by [.first()] *)
Definition first {A : Type} (w : A -> bool) (rows : list A) : option A :=
  List.find w rows.

(** [UPDATE ... SET f WHERE w] *)
Definition update {A : Type} (w : A -> bool) (f : A -> A) (rows : list A)
  : list A :=
  List.map (fun r => if w r then f r else r) rows.

(** [DELETE FROM ... WHERE w] *)
Definition delete {A : Type} (w : A -> bool) (rows : list A) : list A :=
  List.filter (fun r => negb (w r)) rows.

Definition with_users (f : list User.t -> list User.t) (db : t) : t :=
  mk (f (users db)) (sites db) (comments db) (comments_seq db)
     (comment_likes db) (comment_flags db).

Definition with_sites (f : list Site.t -> list Site.t) (db : t) : t :=
  mk (users db) (f (sites db)) (comments db) (comments_seq db)
     (comment_likes db) (comment_flags db).

Definition with_comments (f : list Comment.t -> list Comment.t) (db : t) : t :=
  mk (users db) (sites db) (f (comments db)) (comments_seq db)
     (comment_likes db) (comment_flags db).

Definition with_likes (f : list Like.t -> list Like.t) (db : t) : t :=
  mk (users db) (sites db) (comments db) (comments_seq db)
     (f (comment_likes db)) (comment_flags db).

Definition with_flags (f : list Flag.t -> list Flag.t) (db : t) : t :=
  mk (users db) (sites db) (comments db) (comments_seq db)
     (comment_likes db) (f (comment_flags db)).

(** [INSERT INTO comments ...]: the row takes the next id. *)
Definition insert_comment (row : Z -> Comment.t) (db : t) : Z * t :=
  let rowid := comments_seq db + 1 in
  (rowid,
   mk (users db) (sites db) (comments db ++ [row rowid]) rowid
      (comment_likes db) (comment_flags db)).
End DB.

(** ** SpamScorer: [calculateSpamScore] *)

Import RegExp.

(** [/\b(viagra|cialis|casino|poker|loan|mortgage)\b/gi] *)
Definition vocabularyPattern : regex :=
  Seq WordBoundary
    (Seq (Alts (Lit true "viagra")
            [Lit true "cialis"; Lit true "casino"; Lit true "poker";
             Lit true "loan"; Lit true "mortgage"])
       WordBoundary).

(** [/\b(click here|buy now|limited offer|act now)\b/gi] *)
Definition phrasePattern : regex :=
  Seq WordBoundary
    (Seq (Alts (Lit true "click here")
            [Lit true "buy now"; Lit true "limited offer"; Lit true "act now"])
       WordBoundary).

(** [/https?:\/\/[^\s]+/g] *)
Definition urlPattern : regex :=
  Seq (Lit false "http")
    (Seq (Opt (Lit false "s"))
       (Seq (Lit false "://") (Plus (Class (fun c => negb (is_space c)))))).

(** [/\b[A-Z]{5,}\b/g] *)
Definition capsPattern : regex :=
  Seq WordBoundary (Seq (AtLeast 5 (Class (in_range 65 90))) WordBoundary).

(** [/https?:\/\//g] *)
Definition linkPattern : regex :=
  Seq (Lit false "http") (Seq (Opt (Lit false "s")) (Lit false "://")).

Definition spamPatterns : list regex :=
  [vocabularyPattern; phrasePattern; urlPattern; capsPattern].

(** [a < b] on numbers where [a] may be [NaN] ([None]): false on [NaN]. *)
Definition num_lt (a : option Z) (b : Z) : bool :=
  match a with Some x => x <? b | None => false end.

(** [calculateSpamScore(content, user)]; [now] is what [Date.now()] returns. *)
Definition calculateSpamScore (now : Z) (content : list N) (user : User.t) : Z :=
  let score := 0 in
  let score :=
    fold_left
      (fun score pattern =>
         match js_match pattern content with
         | Some matches => score + Z.of_nat (length matches) * 10
         | None => score
         end)
      spamPatterns score in
  let accountAge := option_map (fun t => now - t) (User.created_at user) in
  let score := if num_lt accountAge (24 * 60 * 60 * 1000) then score + 20 else score in
  let score := if User.reputation user <? 10 then score + 15 else score in
  let linkCount :=
    Z.of_nat (length (default [] (js_match linkPattern content))) in
  let score := if 2 <? linkCount then score + linkCount * 15 else score in
  Z.min score 100.

(** The scorer as the specification describes it: a function of the content
    and the author alone. The code has such a function exactly when the score
    does not depend on the clock reading. *)
Definition scorer_is_function_of_arguments : Prop :=
  forall (now1 now2 : Z) (content : list N) (user : User.t),
    calculateSpamScore now1 content user = calculateSpamScore now2 content user.

(** ** The worker: environment, requests and responses *)

Record Env : Type := mkEnv {
  WEBHOOK_SECRET : option string;
  RESEND_API_KEY : option string
}.

(** The outcome of reading the [auth_token] cookie and of [jwt.verify]:
    no cookie, a token that does not verify, or a payload with its [sub]. *)
Inductive Token : Type :=
| NoToken
| InvalidToken
| Payload (sub : Z).

Record CommentRequest : Type := mkCommentRequest {
  token : Token;
  siteKey : string;
  postSlug : string;
  content : list N;
  parent_id : option Z;
  post_title : option string;
  CF_Connecting_IP : option string;
  User_Agent : option string
}.

Inductive Body : Type :=
| ErrorBody (error : string)
| CreatedBody (success : bool) (status : Status) (message : string)
| LikedBody (liked : bool)
| SuccessBody (success : bool).

(** [c.json(body, code)] *)
Record Response : Type := json { body : Body; code : Z }.

Record WebhookData : Type := mkWebhookData {
  event : string;
  comment_id : Z;
  comment_content : list N;
  comment_status : Status;
  author_name : string;
  author_email : string;
  post_slug : string;
  post_title' : option string;
  timestamp : Z
}.

(** [btoa] of the SHA-256 digest of [JSON.stringify(data) + secret], kept
    symbolic. *)
Inductive Signature : Type :=
| DigestBase64 (data : WebhookData) (secret : string).

(** Messages handed to [EMAIL_QUEUE.send]. *)
Inductive Message : Type :=
| WebhookMessage (url : string) (data : WebhookData) (signature : Signature)
| NewCommentMessage (to site_name post_slug comment_author : string)
    (comment_content : list N).

(** Truthiness of a possibly missing string: [undefined], [null] and the
    empty string are falsy. *)
Definition truthy (s : option string) : bool :=
  match s with
  | Some v => negb (String.eqb v "")
  | None => false
  end.

(** [x || 'unknown'] and [x || null] *)
Definition or_default (s : option string) (d : string) : string :=
  if truthy s then default d s else d.

Definition or_null (s : option string) : option string :=
  if truthy s then s else None.

Definition or_null_num (n : option Z) : option Z :=
  match n with
  | Some v => if v =? 0 then None else Some v
  | None => None
  end.

(** The "Determine comment status" block of the submission handler. *)
Definition determineStatus (site : Site.t) (user : User.t) (spamScore : Z)
  : Status :=
  let status := approved in
  if Site.moderation_enabled site then
    if Site.auto_approve_threshold site <=? spamScore then spam
    else if User.reputation user <? 10 then pending
    else status
  else status.

Definition statusMessage (status : Status) : string :=
  match status with
  | pending => "Your comment is awaiting moderation."
  | spam => "Your comment was flagged as spam."
  | _ => "Comment posted successfully!"
  end.

Definition status_eqb (a b : Status) : bool :=
  match a, b with
  | pending, pending | approved, approved | spam, spam | deleted, deleted => true
  | _, _ => false
  end.

(** ** [app.post('/api/comments/:siteKey/:postSlug')]

    The handler after [rateLimitMiddleware] has let the request through.
    [now] is the clock of the request: the reading of [Date.now()] in the
    scorer and the time written to the row and to the webhook payload. The
    result is the response, the database and the messages sent to the queue,
    in order. The test [site.require_auth && !user] comes after [user] is
    known to be a row and never fires. *)

Definition webhookMessages (env : Env) (now : Z) (req : CommentRequest)
  (site : Site.t) (user : User.t) (rowid : Z) (status : Status)
  : list Message :=
  if truthy (Site.webhook_url site) && truthy (WEBHOOK_SECRET env) then
    let webhookData :=
      mkWebhookData "comment.created" rowid (content req) status
        (User.name user) (User.email user) (postSlug req) (post_title req)
        now in
    [WebhookMessage (default "" (Site.webhook_url site)) webhookData
       (DigestBase64 webhookData (default "" (WEBHOOK_SECRET env)))]
  else [].

(** [SELECT u.* FROM users u JOIN sites s ON u.id = s.user_id WHERE s.id = ?] *)
Definition siteOwner (site_id : Z) (db : DB.t) : option User.t :=
  match DB.first (fun s => Site.id s =? site_id) (DB.sites db) with
  | Some s => DB.first (fun u => User.id u =? Site.user_id s) (DB.users db)
  | None => None
  end.

Definition emailMessages (env : Env) (req : CommentRequest) (site : Site.t)
  (user : User.t) (db : DB.t) : list Message :=
  if truthy (RESEND_API_KEY env) then
    match siteOwner (Site.id site) db with
    | Some owner =>
        if User.email_notifications owner then
          [NewCommentMessage (User.email owner) (Site.name site) (postSlug req)
             (User.name user) (take 200 (content req))]
        else []
    | None => []
    end
  else [].

Definition postComment (env : Env) (now : Z) (req : CommentRequest) (db : DB.t)
  : Response * DB.t * list Message :=
  match token req with
  | NoToken => (json (ErrorBody "Authentication required") 401, db, [])
  | InvalidToken => (json (ErrorBody "Invalid token") 401, db, [])
  | Payload sub =>
      match DB.first (fun u => (User.id u =? sub) && negb (User.is_banned u))
              (DB.users db) with
      | None => (json (ErrorBody "User not found or banned") 403, db, [])
      | Some user =>
          match DB.first (fun s => String.eqb (Site.api_key s) (siteKey req))
                  (DB.sites db) with
          | None => (json (ErrorBody "Invalid site key") 404, db, [])
          | Some site =>
              let spamScore :=
                if Site.spam_filter_enabled site
                then calculateSpamScore now (content req) user else 0 in
              let status := determineStatus site user spamScore in
              let ipAddress := or_default (CF_Connecting_IP req) "unknown" in
              let userAgent := or_default (User_Agent req) "unknown" in
              let '(rowid, db) :=
                DB.insert_comment
                  (fun rowid =>
                     Comment.mk rowid (Site.id site) (postSlug req)
                       (or_null (post_title req)) (User.id user)
                       (or_null_num (parent_id req)) (content req) status
                       spamScore ipAddress userAgent now now 0 0)
                  db in
              let db :=
                DB.with_sites
                  (DB.update (fun s => Site.id s =? Site.id site)
                     (Site.set_total_comments (fun n => n + 1)))
                  db in
              let db :=
                if status_eqb status approved then
                  DB.with_users
                    (DB.update (fun u => User.id u =? User.id user)
                       (User.set_reputation (fun r => r + 1)))
                    db
                else db in
              let hooks := webhookMessages env now req site user rowid status in
              let mails := emailMessages env req site user db in
              (json (CreatedBody true status (statusMessage status)) 200, db,
               hooks ++ mails)
          end
      end
  end.

(** ** [app.post('/api/comments/:id/like')]

    The handler proper; [user] is the row [authMiddleware] stored in the
    context and [commentId] the number in the [:id] segment of the path. *)

Definition likeComment (now : Z) (commentId : Z) (user : User.t) (db : DB.t)
  : Response * DB.t :=
  let mine (l : Like.t) :=
    (Like.comment_id l =? commentId) && (Like.user_id l =? User.id user) in
  match DB.first mine (DB.comment_likes db) with
  | Some existing =>
      let db := DB.with_likes (DB.delete mine) db in
      let db :=
        DB.with_comments
          (DB.update (fun c => Comment.id c =? commentId)
             (Comment.set_likes (fun n => n - 1)))
          db in
      (json (LikedBody false) 200, db)
  | None =>
      let db :=
        DB.with_likes (fun rows => rows ++ [Like.mk commentId (User.id user) now])
          db in
      let db :=
        DB.with_comments
          (DB.update (fun c => Comment.id c =? commentId)
             (Comment.set_likes (fun n => n + 1)))
          db in
      let comment :=
        DB.first (fun c => Comment.id c =? commentId) (DB.comments db) in
      let db :=
        match comment with
        | Some comment =>
            DB.with_users
              (DB.update (fun u => User.id u =? Comment.user_id comment)
                 (User.set_reputation (fun r => r + 1)))
              db
        | None => db
        end in
      (json (LikedBody true) 200, db)
  end.

(** ** [app.post('/api/comments/:id/flag')] *)

Definition flagComment (now : Z) (commentId : Z) (user : User.t)
  (reason : string) (db : DB.t) : Response * DB.t :=
  let mine (f : Flag.t) :=
    (Flag.comment_id f =? commentId) && (Flag.user_id f =? User.id user) in
  match DB.first mine (DB.comment_flags db) with
  | Some existing =>
      (json (ErrorBody "You have already flagged this comment") 400, db)
  | None =>
      let db :=
        DB.with_flags
          (fun rows => rows ++ [Flag.mk commentId (User.id user) reason now])
          db in
      let db :=
        DB.with_comments
          (DB.update (fun c => Comment.id c =? commentId)
             (Comment.set_flags (fun n => n + 1)))
          db in
      let comment :=
        DB.first (fun c => Comment.id c =? commentId) (DB.comments db) in
      let db :=
        match comment with
        | Some comment =>
            if 3 <=? Comment.flags comment then
              DB.with_comments
                (DB.update (fun c => Comment.id c =? commentId)
                   (Comment.set_status pending))
                db
            else db
        | None => db
        end in
      (json (SuccessBody true) 200, db)
  end.

(** ** Observations on the database *)

Definition comment_of (db : DB.t) (id : Z) : option Comment.t :=
  DB.first (fun c => Comment.id c =? id) (DB.comments db).

Definition user_of (db : DB.t) (id : Z) : option User.t :=
  DB.first (fun u => User.id u =? id) (DB.users db).

Definition site_of (db : DB.t) (id : Z) : option Site.t :=
  DB.first (fun s => Site.id s =? id) (DB.sites db).

Definition reputation_of (db : DB.t) (id : Z) : option Z :=
  User.reputation <$> user_of db id.

Definition total_comments_of (db : DB.t) (id : Z) : option Z :=
  Site.total_comments <$> site_of db id.

Definition likes_of (db : DB.t) (id : Z) : option Z :=
  Comment.likes <$> comment_of db id.

Definition flags_of (db : DB.t) (id : Z) : option Z :=
  Comment.flags <$> comment_of db id.

Definition status_of (db : DB.t) (id : Z) : option Status :=
  Comment.status <$> comment_of db id.

(** A comment submission is created when the handler answers with the
    creation body. *)
Definition created (r : Response * DB.t * list Message) : option Status :=
  match body (fst (fst r)) with
  | CreatedBody _ status _ => Some status
  | _ => None
  end.

Definition is_webhook_created (status : Status) (m : Message) : bool :=
  match m with
  | WebhookMessage _ data _ =>
      String.eqb (event data) "comment.created"
      && status_eqb (comment_status data) status
  | _ => false
  end.

(** ** Derived notions used to state the properties *)

(** The number of matches of a pattern in a content,
    [(content.match(pattern) || []).length]. *)
Definition hits (pattern : RegExp.regex) (content : list N) : Z :=
  Z.of_nat (length (default [] (RegExp.js_match pattern content))).

(** [accountAge < 24 * 60 * 60 * 1000] at clock reading [now]. *)
Definition young (now : Z) (user : User.t) : bool :=
  num_lt (option_map (fun t => now - t) (User.created_at user))
    (24 * 60 * 60 * 1000).

(** ** A small installation, used to run the handlers on concrete inputs:
    a site owner, an author whose account is created at time 0 with
    reputation 0, a trusted author with reputation 50, one site with
    moderation and the spam filter on, threshold 30 and a webhook, and one
    approved comment by the trusted author. *)

Definition owner : User.t :=
  User.mk 1 "owner@example.com" "Owner" RoleUser true (Some 0) false 0.

Definition newcomer : User.t :=
  User.mk 2 "new@example.com" "Newcomer" RoleUser true (Some 0) false 0.

Definition regular : User.t :=
  User.mk 3 "regular@example.com" "Regular" RoleUser true (Some 0) false 50.

Definition blog : Site.t :=
  Site.mk 1 1 "example.com" "Blog" "key-1" (Some "https://example.com/hook")
    true 30 true false 0.

Definition welcome : Comment.t :=
  Comment.mk 1 1 "hello-world" None 3 None (RegExp.units "Welcome!") approved
    0 "unknown" "unknown" 0 0 0 0.

Definition db0 : DB.t :=
  DB.mk [owner; newcomer; regular] [blog] [welcome] 1 [] [].

Definition env0 : Env := mkEnv (Some "whsec") None.

Definition two_hours : Z := 2 * 60 * 60 * 1000.

(** The newcomer posts one URL and the phrase "buy now". *)
Definition promo : CommentRequest :=
  mkCommentRequest (Payload 2) "key-1" "hello-world"
    (RegExp.units "buy now http://x.co") None None None None.

(** The newcomer posts a plain sentence. *)
Definition plain : CommentRequest :=
  mkCommentRequest (Payload 2) "key-1" "hello-world"
    (RegExp.units "nice post, thanks") None None None None.

Definition two_days : Z := 2 * 24 * 60 * 60 * 1000.

(** The installation after the owner and the regular have flagged the
    welcome comment, and after the newcomer has liked it. *)
Definition db_two_flags : DB.t :=
  snd (flagComment 20 1 regular "off topic"
         (snd (flagComment 10 1 owner "off topic" db0))).

Definition db_liked : DB.t := snd (likeComment 10 1 newcomer db0).

(** ** The state after each handler, for the requests it accepts *)

(** The score the submission handler stores. *)
Definition submittedScore (now : Z) (req : CommentRequest) (site : Site.t)
  (user : User.t) : Z :=
  if Site.spam_filter_enabled site
  then calculateSpamScore now (content req) user else 0.

Definition submittedStatus (now : Z) (req : CommentRequest) (site : Site.t)
  (user : User.t) : Status :=
  determineStatus site user (submittedScore now req site user).

(** The row the submission handler inserts. *)
Definition submittedRow (now : Z) (req : CommentRequest) (db : DB.t)
  (site : Site.t) (user : User.t) : Comment.t :=
  Comment.mk (DB.comments_seq db + 1) (Site.id site) (postSlug req)
    (or_null (post_title req)) (User.id user) (or_null_num (parent_id req))
    (content req) (submittedStatus now req site user)
    (submittedScore now req site user)
    (or_default (CF_Connecting_IP req) "unknown")
    (or_default (User_Agent req) "unknown") now now 0 0.

(** [UPDATE users SET reputation = reputation + 1 WHERE id = ?] *)
Definition credit (id : Z) (users : list User.t) : list User.t :=
  DB.update (fun u => User.id u =? id) (User.set_reputation (fun r => r + 1))
    users.

(** The database after an accepted submission. *)
Definition afterSubmission (now : Z) (req : CommentRequest) (db : DB.t)
  (site : Site.t) (user : User.t) : DB.t :=
  DB.mk
    (if status_eqb (submittedStatus now req site user) approved
     then credit (User.id user) (DB.users db) else DB.users db)
    (DB.update (fun s => Site.id s =? Site.id site)
       (Site.set_total_comments (fun n => n + 1)) (DB.sites db))
    (DB.comments db ++ [submittedRow now req db site user])
    (DB.comments_seq db + 1) (DB.comment_likes db) (DB.comment_flags db).

(** The database after [user] likes the comment [commentId], whose row is
    [comment] and which they had not liked before. *)
Definition afterLike (now : Z) (commentId : Z) (user : User.t)
  (comment : Comment.t) (db : DB.t) : DB.t :=
  DB.mk (credit (Comment.user_id comment) (DB.users db)) (DB.sites db)
    (DB.update (fun c => Comment.id c =? commentId)
       (Comment.set_likes (fun n => n + 1)) (DB.comments db))
    (DB.comments_seq db)
    (DB.comment_likes db ++ [Like.mk commentId (User.id user) now])
    (DB.comment_flags db).

(** A comment row after one more flag. *)
Definition flaggedComment (comment : Comment.t) : Comment.t :=
  let counted := Comment.set_flags (fun n => n + 1) comment in
  if 3 <=? Comment.flags counted then Comment.set_status pending counted
  else counted.

(** The database after [user] flags the comment [commentId], whose row is
    [comment] and which they had not flagged before. *)
Definition afterFlag (now : Z) (commentId : Z) (user : User.t)
  (reason : string) (comment : Comment.t) (db : DB.t) : DB.t :=
  let counted :=
    DB.update (fun c => Comment.id c =? commentId)
      (Comment.set_flags (fun n => n + 1)) (DB.comments db) in
  DB.mk (DB.users db) (DB.sites db)
    (if 3 <=? Comment.flags comment + 1
     then DB.update (fun c => Comment.id c =? commentId)
            (Comment.set_status pending) counted
     else counted)
    (DB.comments_seq db) (DB.comment_likes db)
    (DB.comment_flags db ++ [Flag.mk commentId (User.id user) reason now]).

(** ** [rateLimitMiddleware] and the submission route

    [RATE_LIMITER] is a namespace of Durable Objects, one [RateLimiter] per
    name, each starting with an empty map; the name is the client address. *)

Abbreviation Limiters := (gmap string (gmap string (list Z))).

(** [rateLimitMiddleware(c, next)]: the answer is [true] when [next] runs.
    [pathname] is the path of the request being limited. *)
Definition rateLimitMiddleware (now_clean now : Z) (ip : option string)
  (pathname : string) (limiters : Limiters) : bool * Limiters :=
  let clientIp := or_default ip "unknown" in
  let rateLimiter := default ∅ (limiters !! clientIp) in
  let '(response, rateLimiter) :=
    RateLimiter.fetch now_clean now pathname rateLimiter in
  (negb (RateLimiter.status response =? 429),
   <[clientIp := rateLimiter]> limiters).

(** [app.post('/api/comments/:siteKey/:postSlug', rateLimitMiddleware, ...)]:
    the middleware, then the handler with its own clock reading. *)
Definition submitRoute (env : Env) (now_clean now_limit now : Z)
  (pathname : string) (req : CommentRequest) (limiters : Limiters)
  (db : DB.t) : Response * Limiters * DB.t * list Message :=
  let '(next, limiters) :=
    rateLimitMiddleware now_clean now_limit (CF_Connecting_IP req) pathname
      limiters in
  if next then
    let '(response, db, messages) := postComment env now req db in
    (response, limiters, db, messages)
  else (json (ErrorBody "Too many requests") 429, limiters, db, []).

(** Calls to one [RateLimiter] for any keys, in order, each with its two
    clock readings. *)
Fixpoint serve (calls : list (Z * Z * string))
  (requests : gmap string (list Z)) : gmap string (list Z) :=
  match calls with
  | [] => requests
  | (now_clean, now, key) :: calls' =>
      serve calls' (snd (RateLimiter.fetch now_clean now key requests))
  end.

(** ** The queue consumer: [queue], [deliverWebhook], [sendNewCommentEmail]
    and [sendWelcomeEmail] *)

(** The body of a queue message: one of the two kinds the submission handler
    sends, the welcome message of the registration, or a body whose [type]
    is none of the three the consumer knows. *)
Inductive QueueBody : Type :=
| Enqueued (m : Message)
| WelcomeBody (to name : string)
| OtherBody (type : string).

(** The [html] of an e-mail, a template filled with these values. *)
Inductive EmailHtml : Type :=
| WelcomeHtml (name : string)
| NewCommentHtml (site_name comment_author post_slug : string)
    (comment_content : list N).

(** The calls to [fetch]: a POST to the webhook URL with the signature in
    [X-CloudComments-Signature] and [JSON.stringify(data)] as body, or a POST
    to the Resend API with the key as bearer token. *)
Inductive HttpRequest : Type :=
| WebhookPost (url : string) (signature : Signature) (data : WebhookData)
| ResendPost (apiKey from to subject : string) (html : EmailHtml).

(** What the network answers to the calls, by their order: a status, or
    [None] when [fetch] rejects. *)
Abbreviation Network := (nat -> option Z).

(** [response.ok] *)
Definition response_ok (response : option Z) : bool :=
  match response with
  | Some status => (200 <=? status) && (status <=? 299)
  | None => false
  end.

(** [await fetch(...)]: [sent] lists the calls made so far. A function that
    calls it answers [true] when it returns and [false] when it throws. *)
Definition http_fetch (net : Network) (sent : list HttpRequest)
  (request : HttpRequest) : bool * list HttpRequest :=
  (response_ok (net (length sent)), sent ++ [request]).

Definition deliverWebhook (net : Network) (sent : list HttpRequest)
  (url : string) (data : WebhookData) (signature : Signature)
  : bool * list HttpRequest :=
  http_fetch net sent (WebhookPost url signature data).

Definition sendNewCommentEmail (env : Env) (net : Network)
  (sent : list HttpRequest) (to site_name post_slug comment_author : string)
  (comment_content : list N) : bool * list HttpRequest :=
  if negb (truthy (RESEND_API_KEY env)) then (true, sent)
  else
    http_fetch net sent
      (ResendPost (default "" (RESEND_API_KEY env))
         "CloudComments <notifications@cloudcomments.io>" to
         ("New comment on " ++ site_name)
         (NewCommentHtml site_name comment_author post_slug comment_content)).

Definition sendWelcomeEmail (env : Env) (net : Network)
  (sent : list HttpRequest) (to name : string) : bool * list HttpRequest :=
  if negb (truthy (RESEND_API_KEY env)) then (true, sent)
  else
    http_fetch net sent
      (ResendPost (default "" (RESEND_API_KEY env))
         "CloudComments <noreply@cloudcomments.io>" to
         "Welcome to CloudComments!" (WelcomeHtml name)).

(** [message.ack()] or [message.retry()] *)
Inductive Settlement : Type := Ack | Retry.

(** One round of the loop of [queue]: the [switch] on the type inside [try],
    then [ack], or [retry] in the [catch]. *)
Definition settle (env : Env) (net : Network) (sent : list HttpRequest)
  (body : QueueBody) : Settlement * list HttpRequest :=
  let '(returned, sent) :=
    match body with
    | WelcomeBody to name => sendWelcomeEmail env net sent to name
    | Enqueued (NewCommentMessage to site_name post_slug comment_author
                  comment_content) =>
        sendNewCommentEmail env net sent to site_name post_slug
          comment_author comment_content
    | Enqueued (WebhookMessage url data signature) =>
        deliverWebhook net sent url data signature
    | OtherBody _ => (true, sent)
    end in
  (if returned then Ack else Retry, sent).

(** [queue(batch, env)] *)
Fixpoint queue (env : Env) (net : Network) (batch : list QueueBody)
  (sent : list HttpRequest) : list Settlement * list HttpRequest :=
  match batch with
  | [] => ([], sent)
  | body :: batch' =>
      let '(settlement, sent) := settle env net sent body in
      let '(settlements, sent) := queue env net batch' sent in
      (settlement :: settlements, sent)
  end.

(** ** Invariants of the tables *)

(** Comment ids are pairwise distinct and none exceeds the AUTOINCREMENT
    counter. *)
Definition comment_ids_ok (db : DB.t) : Prop :=
  NoDup (List.map Comment.id (DB.comments db))
  /\ Forall (fun c => Comment.id c <= DB.comments_seq db) (DB.comments db).

(** A user has at most one like on a comment, and the [likes] column of every
    comment is the number of its like rows. *)
Definition likes_consistent (db : DB.t) : Prop :=
  NoDup (List.map (fun l => (Like.comment_id l, Like.user_id l))
           (DB.comment_likes db))
  /\ Forall
       (fun c =>
          Comment.likes c
          = Z.of_nat
              (length
                 (List.filter (fun l => Like.comment_id l =? Comment.id c)
                    (DB.comment_likes db))))
       (DB.comments db).

(** A user has at most one flag on a comment, and the [flags] column of every
    comment is the number of its flag rows. *)
Definition flags_consistent (db : DB.t) : Prop :=
  NoDup (List.map (fun f => (Flag.comment_id f, Flag.user_id f))
           (DB.comment_flags db))
  /\ Forall
       (fun c =>
          Comment.flags c
          = Z.of_nat
              (length
                 (List.filter (fun f => Flag.comment_id f =? Comment.id c)
                    (DB.comment_flags db))))
       (DB.comments db).

(** [n] rounds of a like followed by an unlike of one comment by one user. *)
Fixpoint toggles (n : nat) (now : Z) (commentId : Z) (user : User.t)
  (db : DB.t) : DB.t :=
  match n with
  | O => db
  | S n' =>
      toggles n' now commentId user
        (snd (likeComment now commentId user
                (snd (likeComment now commentId user db))))
  end.

(** ** Regular expressions that cannot match without a given kind of code
    unit *)

(** [needs P r]: a condition on the shape of [r] under which every match of
    [r] consumes a code unit in [P]. *)
Fixpoint needs (P : N -> bool) (r : RegExp.regex) : Prop :=
  match r with
  | RegExp.Class p => forall c, p c = true -> P c = true
  | RegExp.Seq r1 r2 => needs P r1 \/ needs P r2
  | RegExp.Alt r1 r2 => needs P r1 /\ needs P r2
  | _ => False
  end.

(** ASCII letters. *)
Definition is_letter (c : N) : bool :=
  RegExp.in_range 97 122 c || RegExp.in_range 65 90 c.

Definition is_webhook (m : Message) : bool :=
  match m with
  | WebhookMessage _ _ _ => true
  | _ => false
  end.

(** ** More of the small installation *)

(** The regular posts three links. *)
Definition linky : CommentRequest :=
  mkCommentRequest (Payload 3) "key-1" "hello-world"
    (RegExp.units "see http://a.example http://b.example http://c.example")
    None None None None.

(** The same installation with the spam filter off and threshold 0. *)
Definition db_strict : DB.t :=
  DB.with_sites
    (fun _ =>
       [Site.mk 1 1 "example.com" "Blog" "key-1" None true 0 false false 0])
    db0.

(** An environment with the mail key and without the webhook secret. *)
Definition env_mail : Env := mkEnv None (Some "re_key").

(** The bodies that ask for an e-mail. *)
Definition is_mail (body : QueueBody) : bool :=
  match body with
  | WelcomeBody _ _ => true
  | Enqueued (NewCommentMessage _ _ _ _ _) => true
  | _ => false
  end.


(** The installation with the newcomer banned. *)
Definition db_banned : DB.t :=
  DB.with_users
    (DB.update (fun u => User.id u =? 2)
       (fun u =>
          User.mk (User.id u) (User.email u) (User.name u) (User.role u)
            (User.email_notifications u) (User.created_at u) true
            (User.reputation u)))
    db0.

(** An endpoint that answers 200 to every call. *)
Definition net_ok : nat -> option Z := fun _ => Some 200.
(** * Properties *)

(** ** RateLimiter *)

Section RateLimiterFacts.
Import RateLimiter.
#[local] Arguments Nat.leb : simpl never.

Lemma window_cleanOldEntries (now : Z) (requests : Requests) (key : string) :
  window (cleanOldEntries now requests) key
  = List.filter (recent now) (window requests key).
Proof.
  unfold window, cleanOldEntries. rewrite lookup_omap.
  destruct (requests !! key) as [reqs|]; simpl; [|reflexivity].
  destruct (List.filter (recent now) reqs); reflexivity.
Qed.

Lemma window_insert (key : string) (reqs : list Z) (requests : Requests) :
  window (<[key := reqs]> requests) key = reqs.
Proof. unfold window. by rewrite lookup_insert_eq. Qed.

Lemma window_insert_ne (key key' : string) (reqs : list Z) (requests : Requests) :
  key <> key' -> window (<[key := reqs]> requests) key' = window requests key'.
Proof. intros Hne. unfold window. by rewrite lookup_insert_ne. Qed.

(** Filtering at a later reading subsumes filtering at an earlier one. *)
Lemma filter_recent_later (now_clean now : Z) (reqs : list Z) :
  now_clean <= now ->
  List.filter (recent now) (List.filter (recent now_clean) reqs)
  = List.filter (recent now) reqs.
Proof.
  intros Hle. induction reqs as [|ts reqs IH]; simpl; [reflexivity|].
  destruct (recent now_clean ts) eqn:Hc; destruct (recent now ts) eqn:Hn;
    simpl; rewrite ?Hn, ?IH; try reflexivity.
  unfold recent in Hc, Hn. apply Z.ltb_ge in Hc. apply Z.ltb_lt in Hn. lia.
Qed.

Lemma filter_length_le {A : Type} (p : A -> bool) (l : list A) :
  (length (List.filter p l) <= length l)%nat.
Proof.
  induction l as [|x l IH]; simpl; [lia|]. destruct (p x); simpl; lia.
Qed.

Lemma filter_all {A : Type} (p : A -> bool) (l : list A) :
  Forall (fun x => p x = true) l -> List.filter p l = l.
Proof.
  induction 1 as [|x l Hx _ IH]; simpl; [reflexivity|].
  by rewrite Hx, IH.
Qed.

(** What one call does to the window of its key. *)
Lemma fetch_window (now_clean now : Z) (key : string) (requests : Requests) :
  let cleaned := List.filter (recent now_clean) (window requests key) in
  let kept := List.filter (recent now) cleaned in
  fetch now_clean now key requests
  = if (60 <=? length kept)%nat
    then (TooMany, cleanOldEntries now_clean requests)
    else (OK, <[key := kept ++ [now]]> (cleanOldEntries now_clean requests)).
Proof.
  simpl. unfold fetch.
  change (default [] (cleanOldEntries now_clean requests !! key))
    with (window (cleanOldEntries now_clean requests) key).
  by rewrite window_cleanOldEntries.
Qed.

(** Keys are isolated: a call for one key leaves every other key with its
    own timestamps, cleaned of the old ones. *)
Lemma fetch_other_key (now_clean now : Z) (key key' : string)
  (requests : Requests) :
  key <> key' ->
  window (snd (fetch now_clean now key requests)) key'
  = List.filter (recent now_clean) (window requests key').
Proof.
  intros Hne. rewrite fetch_window. cbv zeta.
  destruct (60 <=? length _)%nat; cbn [snd].
  - apply window_cleanOldEntries.
  - rewrite window_insert_ne by done. apply window_cleanOldEntries.
Qed.

(** The first calls on a key: as long as fewer than 60 calls were made since
    the key had an empty window, every call is allowed, whatever the clock
    says. *)
Lemma run_all_allowed (key : string) (calls : list (Z * Z)) :
  forall requests : Requests,
    (length (window requests key) + length calls <= 60)%nat ->
    Forall (fun r => r = OK) (fst (run key calls requests)).
Proof.
  induction calls as [|[now_clean now] calls IH]; intros requests Hlen; simpl.
  - constructor.
  - rewrite fetch_window. simpl in Hlen.
    set (kept := List.filter (recent now) _).
    assert (length kept <= length (window requests key))%nat as Hk.
    { subst kept. etransitivity; apply filter_length_le. }
    destruct (Nat.leb_spec 60 (length kept)) as [Hge|Hlt]; [lia|].
    specialize (IH (<[key := kept ++ [now]]> (cleanOldEntries now_clean requests))).
    destruct (run key calls _) as [rs requests'] eqn:Hrun. simpl in *.
    constructor; [reflexivity|]. apply IH.
    rewrite window_insert, length_app. simpl. lia.
Qed.

(** When every clock reading is less than 60 seconds after every timestamp
    on record, the calls are all recorded in order. *)
Lemma run_window (key : string) (t0 t1 : Z) (calls : list (Z * Z)) :
  t1 - t0 < 60000 ->
  Forall (fun c => t0 <= fst c < t1 /\ t0 <= snd c < t1) calls ->
  forall requests : Requests,
    Forall (fun ts => t0 <= ts) (window requests key) ->
    (length (window requests key) + length calls <= 60)%nat ->
    window (snd (run key calls requests)) key
    = window requests key ++ List.map snd calls.
Proof.
  intros Ht. induction 1 as [|[now_clean now] calls [Hc Hn] _ IH];
    intros requests Hw Hlen; simpl in *.
  - by rewrite app_nil_r.
  - rewrite fetch_window.
    assert (List.filter (recent now_clean) (window requests key)
            = window requests key) as ->.
    { apply filter_all. eapply Forall_impl; [exact Hw|].
      intros ts Hts. unfold recent. simpl in Hts. apply Z.ltb_lt. lia. }
    assert (List.filter (recent now) (window requests key)
            = window requests key) as ->.
    { apply filter_all. eapply Forall_impl; [exact Hw|].
      intros ts Hts. unfold recent. simpl in Hts. apply Z.ltb_lt. lia. }
    destruct (Nat.leb_spec 60 (length (window requests key))) as [Hge|Hlt]; [lia|].
    specialize (IH (<[key := window requests key ++ [now]]>
                      (cleanOldEntries now_clean requests))).
    destruct (run key calls _) as [rs requests'] eqn:Hrun. simpl in *.
    rewrite IH.
    + rewrite window_insert. by rewrite <- app_assoc.
    + rewrite window_insert. apply Forall_app. split; [exact Hw|].
      constructor; [lia | constructor].
    + rewrite window_insert, length_app. simpl. lia.
Qed.

End RateLimiterFacts.

Section RateLimiterClaims.
Import RateLimiter.
#[local] Arguments Nat.leb : simpl never.

(** C2 (as amended). For every key, each call keeps the recorded timestamps
    less than 60000 ms old (a timestamp exactly 60 seconds old is dropped
    too); with 60 or more of them left the call is denied and the current time
    is not recorded, otherwise the current time is appended and the call is
    allowed. Consequently 60 calls within one second on a key with nothing on
    record are all allowed, a 61st call less than 60 seconds after the start
    of the burst is denied, and a call 60 seconds or more after the first
    call is allowed again. *)
Theorem C2_sliding_window (key : string) (requests : Requests) :
  (forall now_clean now : Z,
      now_clean <= now ->
      let kept :=
        List.filter (fun ts => now - ts <? 60000) (window requests key) in
      let result := fetch now_clean now key requests in
      ((60 <= length kept)%nat ->
       fst result = TooMany
       /\ window (snd result) key
          = List.filter (recent now_clean) (window requests key))
      /\ ((length kept < 60)%nat ->
          fst result = OK /\ window (snd result) key = kept ++ [now]))
  /\ (forall (t0 : Z) (first : Z * Z) (calls : list (Z * Z))
        (call61 call62 : Z * Z),
         window requests key = [] ->
         length calls = 59%nat ->
         Forall (fun c => t0 <= fst c < t0 + 1000 /\ t0 <= snd c < t0 + 1000)
           (first :: calls) ->
         fst call61 < t0 + 60000 -> snd call61 < t0 + 60000 ->
         60000 <= snd call62 - snd first ->
         let burst := run key (first :: calls) requests in
         let r61 := fetch (fst call61) (snd call61) key (snd burst) in
         let r62 := fetch (fst call62) (snd call62) key (snd r61) in
         length (fst burst) = 60%nat
         /\ Forall (fun r => r = OK) (fst burst)
         /\ fst r61 = TooMany
         /\ fst r62 = OK).
Proof.
  split.
  - intros now_clean now Hle kept result. subst result.
    rewrite fetch_window. simpl. rewrite (filter_recent_later _ _ _ Hle).
    change (List.filter (recent now) (window requests key)) with kept.
    split; intros Hk.
    + destruct (Nat.leb_spec 60 (length kept)); [|lia]. simpl.
      split; [reflexivity | apply window_cleanOldEntries].
    + destruct (Nat.leb_spec 60 (length kept)); [lia|]. simpl.
      split; [reflexivity | apply window_insert].
  - intros t0 first calls [c61 n61] [c62 n62] Hempty Hlen Hburst Hc61 Hn61 H62.
    simpl in Hc61, Hn61, H62. intros burst r61 r62.
    assert (length (fst burst) = 60%nat) as Hlen60.
    { subst burst. clear -Hlen.
      assert (forall cs rq, length (fst (run key cs rq)) = length cs) as Hrun.
      { induction cs as [|[a b] cs IH]; intros rq; simpl; [reflexivity|].
        destruct (fetch a b key rq) as [r rq']. specialize (IH rq').
        destruct (run key cs rq') as [rs rq'']. simpl in *. by rewrite IH. }
      rewrite Hrun. simpl. by rewrite Hlen. }
    assert (Forall (fun r => r = OK) (fst burst)) as Hall.
    { subst burst. apply run_all_allowed. rewrite Hempty. simpl. lia. }
    assert (window (snd burst) key = List.map snd (first :: calls)) as Hw.
    { subst burst.
      rewrite (run_window key t0 (t0 + 1000) (first :: calls)); try done.
      - by rewrite Hempty.
      - lia.
      - rewrite Hempty. constructor.
      - rewrite Hempty. simpl. lia. }
    assert (Forall (fun ts => t0 <= ts) (window (snd burst) key)) as Hlow.
    { rewrite Hw. apply Forall_fmap. eapply Forall_impl; [exact Hburst|].
      intros c Hc. simpl in *. lia. }
    assert (fetch c61 n61 key (snd burst)
            = (TooMany, cleanOldEntries c61 (snd burst))) as H61.
    { rewrite fetch_window. simpl.
      rewrite (filter_all (recent c61)), (filter_all (recent n61)).
      - rewrite Hw. rewrite length_map. simpl. by rewrite Hlen.
      - eapply Forall_impl; [exact Hlow|]. intros ts Hts. simpl in Hts.
        unfold recent. apply Z.ltb_lt. lia.
      - eapply Forall_impl; [exact Hlow|]. intros ts Hts. simpl in Hts.
        unfold recent. apply Z.ltb_lt. lia. }
    split; [exact Hlen60|]. split; [exact Hall|].
    subst r62 r61. simpl. rewrite H61. simpl. split; [reflexivity|].
    rewrite fetch_window. simpl. rewrite window_cleanOldEntries.
    rewrite (filter_all (recent c61)).
    2:{ eapply Forall_impl; [exact Hlow|]. intros ts Hts. simpl in Hts.
        unfold recent. apply Z.ltb_lt. lia. }
    rewrite Hw. destruct first as [c1 n1]. cbn [fst snd List.map] in *.
    match goal with
    | |- context [(60 <=? length ?k)%nat] => set (kept := k)
    end.
    assert (recent n62 n1 = false) as Hdrop.
    { unfold recent. apply Z.ltb_ge. lia. }
    assert (length (List.map snd calls) = 59%nat) as Hrest.
    { by rewrite length_map. }
    assert (length kept <= 59)%nat as Hk.
    { subst kept. simpl. destruct (recent c62 n1); simpl; rewrite ?Hdrop.
      - etransitivity; [apply filter_length_le|].
        etransitivity; [apply filter_length_le|]. lia.
      - etransitivity; [apply filter_length_le|].
        etransitivity; [apply filter_length_le|]. lia. }
    destruct (Nat.leb_spec 60 (length kept)); [lia|]. reflexivity.
Qed.

Lemma C2_sliding_window_witness :
  (let result := RateLimiter.fetch 5 7 "/api/comments/k/p" {["/api/comments/k/p" := [1; 2]]} in
   fst result = RateLimiter.OK
   /\ window (snd result) "/api/comments/k/p"
      = List.filter (fun ts => 7 - ts <? 60000)
          (window {["/api/comments/k/p" := [1; 2]]} "/api/comments/k/p")
        ++ [7])
  /\ (let burst := run "/api/comments/k/p" ((0, 0) :: repeat (10, 10) 59) ∅ in
      let r61 := fetch 59999 59999 "/api/comments/k/p" (snd burst) in
      let r62 := fetch 60000 60000 "/api/comments/k/p" (snd r61) in
      length (fst burst) = 60%nat
      /\ Forall (fun r => r = OK) (fst burst)
      /\ fst r61 = TooMany
      /\ fst r62 = OK).
Proof.
  split.
  - apply (proj2 (proj1 (C2_sliding_window "/api/comments/k/p"
                           {["/api/comments/k/p" := [1; 2]]}) 5 7 ltac:(lia))).
    vm_compute. lia.
  - apply (proj2 (C2_sliding_window "/api/comments/k/p" ∅)
             0 (0, 0) (repeat (10, 10) 59) (59999, 59999) (60000, 60000)).
    + reflexivity.
    + reflexivity.
    + repeat constructor; simpl; lia.
    + simpl; lia.
    + simpl; lia.
    + simpl; lia.
Defined.

(** C2 (as stated) fails at the edge of the window. After 60 calls at time 0
    on a key, a call at time 60000 finds 60 timestamps none of which is older
    than [now - 60s], so the stated rule denies it; the code drops them all
    and allows the call. *)
Lemma C2_counterexample :
  let requests := snd (run "/login" (repeat (0, 0) 60) ∅) in
  window requests "/login" = repeat 0 60
  /\ spec_allows 60000 "/login" requests = false
  /\ fst (fetch 60000 60000 "/login" requests) = OK.
Proof. vm_compute. repeat split. Qed.

End RateLimiterClaims.

(** ** The matcher never runs short of steps *)

Section RegExpFacts.
Import RegExp.
Variable s : list N.

(** A successful match ends where its continuation was entered, at or after
    the start. *)
Lemma repeat_star_forward (m : nat -> (nat -> option nat) -> option nat)
  (k : nat -> option nat) :
  (forall i k' e, m i k' = Some e -> exists j, (i <= j)%nat /\ k' j = Some e) ->
  forall (n i e : nat),
    repeat_star m k n i = Some e -> exists j, (i <= j)%nat /\ k j = Some e.
Proof.
  intros Hm. induction n as [|n IHn]; intros i e Hr; cbn [repeat_star] in Hr.
  - exists i. split; [lia | exact Hr].
  - destruct (m i _) as [e1|] eqn:H1.
    + injection Hr as <-. apply Hm in H1 as (j & Hj & H1).
      destruct (i <? j)%nat; [|discriminate].
      apply IHn in H1 as (j' & Hj' & H1). exists j'. split; [lia | exact H1].
    + exists i. split; [lia | exact Hr].
Qed.

Lemma rmatch_forward (r : regex) :
  forall (i : nat) (k : nat -> option nat) (e : nat),
    rmatch r s i k = Some e -> exists j, (i <= j)%nat /\ k j = Some e.
Proof.
  induction r as [p| | |r1 IH1 r2 IH2|r1 IH1 r2 IH2|r1 IH1|r1 IH1];
    intros i k e Hm; cbn [rmatch] in Hm.
  - destruct (s !! i) as [c|]; [|discriminate].
    destruct (p c); [|discriminate]. exists (S i). split; [lia | exact Hm].
  - destruct (at_boundary s i); [|discriminate]. exists i. split; [lia | exact Hm].
  - exists i. split; [lia | exact Hm].
  - apply IH1 in Hm as (j1 & Hj1 & Hm). apply IH2 in Hm as (j & Hj & Hm).
    exists j. split; [lia | exact Hm].
  - destruct (rmatch r1 s i k) as [e1|] eqn:H1.
    + injection Hm as <-. by apply IH1 in H1.
    + by apply IH2 in Hm.
  - destruct (rmatch r1 s i _) as [e1|] eqn:H1.
    + injection Hm as <-. apply IH1 in H1 as (j & Hj & H1).
      destruct (i <? j)%nat; [|discriminate]. exists j. split; [lia | exact H1].
    + exists i. split; [lia | exact Hm].
  - by apply (repeat_star_forward _ _ IH1) in Hm.
Qed.

Lemma repeat_star_alike (m : nat -> (nat -> option nat) -> option nat) :
  (forall i k1 k2, alike s i k1 k2 -> m i k1 = m i k2) ->
  forall (n i : nat) (k1 k2 : nat -> option nat),
    alike s i k1 k2 -> repeat_star m k1 n i = repeat_star m k2 n i.
Proof.
  intros Hm. induction n as [|n IHn]; intros i k1 k2 Hk; cbn [repeat_star].
  - apply Hk; [lia | by right].
  - rewrite (Hm i _ (fun j => if (i <? j)%nat then repeat_star m k2 n j else None)).
    + rewrite (Hk i); [reflexivity | lia | by right].
    + intros j Hj Hin. destruct (Nat.ltb_spec i j); [|reflexivity].
      apply IHn. intros j' Hj' Hin'. apply Hk; [lia|].
      destruct Hin' as [?| ->]; [by left|]. destruct Hin; [by left | lia].
Qed.

Lemma rmatch_alike (r : regex) :
  forall (i : nat) (k1 k2 : nat -> option nat),
    alike s i k1 k2 -> rmatch r s i k1 = rmatch r s i k2.
Proof.
  induction r as [p| | |r1 IH1 r2 IH2|r1 IH1 r2 IH2|r1 IH1|r1 IH1];
    intros i k1 k2 Hk; cbn [rmatch].
  - destruct (s !! i) as [c|] eqn:Hc; [|reflexivity].
    destruct (p c); [|reflexivity]. apply lookup_lt_Some in Hc.
    apply Hk; [lia | left; lia].
  - destruct (at_boundary s i); [|reflexivity]. apply Hk; [lia | by right].
  - apply Hk; [lia | by right].
  - apply IH1. intros j Hj Hin. apply IH2. intros j' Hj' Hin'.
    apply Hk; [lia|]. destruct Hin' as [?| ->]; [by left|].
    destruct Hin as [?| ->]; [by left | by right].
  - by rewrite (IH1 i k1 k2 Hk), (IH2 i k1 k2 Hk).
  - rewrite (IH1 i _ (fun j => if (i <? j)%nat then k2 j else None)).
    + rewrite (Hk i); [reflexivity | lia | by right].
    + intros j Hj Hin. destruct (Nat.ltb_spec i j); [|reflexivity].
      apply Hk; [lia|]. destruct Hin; [by left | lia].
  - by apply repeat_star_alike.
Qed.

(** The bound [length s - i] on the iterations of [*] is enough: a larger
    bound gives the same result. *)
Lemma repeat_star_enough (r : regex) (k : nat -> option nat) (n : nat) :
  forall i : nat,
    (length s - i <= n)%nat ->
    repeat_star (rmatch r s) k n i = rmatch (Star r) s i k.
Proof.
  cbn [rmatch].
  assert (forall n i, (length s <= i)%nat ->
                      repeat_star (rmatch r s) k n i = k i) as Hend.
  { intros [|n'] i Hi; cbn [repeat_star]; [reflexivity|].
    rewrite (rmatch_alike r i _ (fun _ => None)).
    - destruct (rmatch r s i (fun _ => None)) as [e|] eqn:Hm; [|reflexivity].
      apply rmatch_forward in Hm as (j & _ & Hm). discriminate Hm.
    - intros j Hj Hin. destruct (Nat.ltb_spec i j); [lia | reflexivity]. }
  assert (forall n1 n2 i, (length s - i <= n1)%nat -> (length s - i <= n2)%nat ->
            repeat_star (rmatch r s) k n1 i = repeat_star (rmatch r s) k n2 i)
    as Hsame.
  { induction n1 as [|n1 IH]; intros n2 i H1 H2.
    - rewrite !Hend by lia. reflexivity.
    - destruct n2 as [|n2]; [rewrite !Hend by lia; reflexivity|].
      cbn [repeat_star].
      rewrite (rmatch_alike r i _
                 (fun j => if (i <? j)%nat
                           then repeat_star (rmatch r s) k n2 j else None));
        [reflexivity|].
      intros j Hj Hin. destruct (Nat.ltb_spec i j); [|reflexivity].
      apply IH; lia. }
  intros i Hn. apply Hsame; lia.
Qed.

Lemma search_bounds (r : regex) (fuel : nat) :
  forall i i' e : nat,
    search fuel r s i = Some (i', e) -> (i <= i' < i + fuel)%nat /\ (i' <= e)%nat.
Proof.
  induction fuel as [|fuel IH]; intros i i' e Hs; cbn [search] in Hs;
    [discriminate|].
  destruct (rmatch r s i Some) as [e1|] eqn:Hm.
  - injection Hs as <- <-. apply rmatch_forward in Hm as (j & Hj & Hm).
    injection Hm as <-. lia.
  - apply IH in Hs. lia.
Qed.

(** The number of rounds [js_match] allows is enough: any larger number gives
    the same matches. *)
Lemma matches_from_enough (r : regex) (fuel1 : nat) :
  forall (fuel2 lastIndex : nat),
    (S (S (length s)) - lastIndex <= fuel1)%nat ->
    (S (S (length s)) - lastIndex <= fuel2)%nat ->
    matches_from fuel1 r s lastIndex = matches_from fuel2 r s lastIndex.
Proof.
  assert (forall fuel lastIndex,
             (S (S (length s)) <= lastIndex)%nat ->
             matches_from fuel r s lastIndex = []) as Hpast.
  { intros [|fuel] lastIndex Hlast; [reflexivity|]. cbn [matches_from].
    unfold exec. by replace (S (length s) - lastIndex)%nat with 0%nat by lia. }
  induction fuel1 as [|fuel1 IH]; intros fuel2 lastIndex H1 H2.
  - rewrite (Hpast fuel2) by lia. reflexivity.
  - destruct fuel2 as [|fuel2]; [by rewrite Hpast by lia|].
    cbn [matches_from]. destruct (exec r s lastIndex) as [[i e]|] eqn:He;
      [|reflexivity].
    unfold exec in He. apply search_bounds in He. f_equal.
    destruct (Nat.eqb_spec e i); apply IH; lia.
Qed.

End RegExpFacts.

(** ** SpamScorer *)

Section ScorerFacts.
Import RegExp.

Lemma hits_match (pattern : regex) (content : list N) (score : Z) :
  match js_match pattern content with
  | Some matches => score + Z.of_nat (length matches) * 10
  | None => score
  end = score + hits pattern content * 10.
Proof.
  unfold hits. destruct (js_match pattern content); simpl; lia.
Qed.

(** The score as a sum of its terms. *)
Lemma calculateSpamScore_sum (now : Z) (content : list N) (user : User.t) :
  calculateSpamScore now content user
  = Z.min
      (hits vocabularyPattern content * 10 + hits phrasePattern content * 10
       + hits urlPattern content * 10 + hits capsPattern content * 10
       + (if young now user then 20 else 0)
       + (if User.reputation user <? 10 then 15 else 0)
       + (if 2 <? hits linkPattern content
          then hits linkPattern content * 15 else 0))
      100.
Proof.
  unfold calculateSpamScore, spamPatterns. cbn [fold_left].
  rewrite !hits_match. fold (young now user). fold (hits linkPattern content).
  destruct (young now user), (User.reputation user <? 10),
    (2 <? hits linkPattern content); f_equal; lia.
Qed.

Lemma hits_nonneg (pattern : regex) (content : list N) : 0 <= hits pattern content.
Proof. unfold hits. lia. Qed.

(** The score lies in [[0,100]]. *)
Lemma calculateSpamScore_range (now : Z) (content : list N) (user : User.t) :
  0 <= calculateSpamScore now content user <= 100.
Proof.
  rewrite calculateSpamScore_sum.
  pose proof (hits_nonneg vocabularyPattern content).
  pose proof (hits_nonneg phrasePattern content).
  pose proof (hits_nonneg urlPattern content).
  pose proof (hits_nonneg capsPattern content).
  pose proof (hits_nonneg linkPattern content).
  destruct (young now user), (User.reputation user <? 10),
    (2 <? hits linkPattern content); lia.
Qed.

(** C4 (as amended). The scorer is a deterministic function of the content,
    the author and the clock reading, which it needs for the account age: any
    two evaluations with identical content and author whose clock readings
    fall on the same side of 24 hours of account age produce identical
    scores. *)
Theorem C4_score_determined (now1 now2 : Z) (content : list N) (user : User.t) :
  young now1 user = young now2 user ->
  calculateSpamScore now1 content user = calculateSpamScore now2 content user.
Proof.
  intros Hy. by rewrite !calculateSpamScore_sum, Hy.
Qed.

Lemma C4_score_determined_witness :
  calculateSpamScore 3600000 (content promo) newcomer
  = calculateSpamScore two_hours (content promo) newcomer.
Proof.
  apply (C4_score_determined 3600000 two_hours (content promo) newcomer).
  reflexivity.
Defined.

(** C4 (as stated) fails: the same content and author score 20 while the
    account is an hour old and 0 once it is 25 hours old. *)
Lemma C4_counterexample : ~ scorer_is_function_of_arguments.
Proof.
  intros H.
  specialize (H 3600000 90000000 (units "hello") regular).
  vm_compute in H. discriminate H.
Qed.

End ScorerFacts.

(** ** Tables *)

Section TableFacts.
Context {A : Type}.

(** Looking up a row after an update that keeps the lookup's condition. *)
Lemma first_update (w : A -> bool) (f : A -> A) (rows : list A) :
  (forall r, w (f r) = w r) ->
  DB.first w (DB.update w f rows) = f <$> DB.first w rows.
Proof.
  intros Hw. unfold DB.first, DB.update.
  induction rows as [|r rows IH]; simpl; [reflexivity|].
  destruct (w r) eqn:Hr.
  - by rewrite Hw, Hr.
  - by rewrite Hr.
Qed.

Lemma first_app_None (w : A -> bool) (rows : list A) (r : A) :
  DB.first w rows = None -> DB.first w (rows ++ [r]) = DB.first w [r].
Proof.
  unfold DB.first. induction rows as [|r' rows IH]; simpl; [reflexivity|].
  destruct (w r'); [discriminate | exact IH].
Qed.

(** A row found under one condition is found under any condition it meets. *)
Lemma first_is_Some (w w' : A -> bool) (rows : list A) (r : A) :
  DB.first w rows = Some r -> w' r = true -> is_Some (DB.first w' rows).
Proof.
  unfold DB.first. intros Hfind Hw'. apply find_some in Hfind as [Hin _].
  destruct (find w' rows) eqn:Hnone; [by eexists|].
  pose proof (find_none _ _ Hnone _ Hin). congruence.
Qed.

Lemma delete_appended (w : A -> bool) (rows : list A) (r : A) :
  DB.first w rows = None -> w r = true -> DB.delete w (rows ++ [r]) = rows.
Proof.
  unfold DB.first, DB.delete. intros Hnone Hr.
  rewrite List.filter_app. simpl. rewrite Hr. simpl. rewrite app_nil_r.
  induction rows as [|r' rows IH]; simpl in *; [reflexivity|].
  destruct (w r'); [discriminate|]. simpl. f_equal. by apply IH.
Qed.

Lemma update_update_id (w : A -> bool) (f g : A -> A) (rows : list A) :
  (forall r, w (f r) = w r) -> (forall r, g (f r) = r) ->
  DB.update w g (DB.update w f rows) = rows.
Proof.
  intros Hw Hgf. unfold DB.update. rewrite List.map_map.
  induction rows as [|r rows IH]; simpl; [reflexivity|]. rewrite IH. f_equal.
  destruct (w r) eqn:Hr; [by rewrite Hw, Hr | by rewrite Hr].
Qed.

End TableFacts.

(** ** ModerationEngine: the comment submission handler *)

Section Submission.
Variables (env : Env) (now : Z) (req : CommentRequest) (db : DB.t).
Variables (sub : Z) (user : User.t) (site : Site.t).

(** The request carries a valid token of a known user who is not banned and
    names a known site. *)
Hypothesis Htoken : token req = Payload sub.
Hypothesis Huser :
  DB.first (fun u => (User.id u =? sub) && negb (User.is_banned u))
    (DB.users db) = Some user.
Hypothesis Hsite :
  DB.first (fun s => String.eqb (Site.api_key s) (siteKey req)) (DB.sites db)
  = Some site.

(** The handler on such a request, step by step. *)
Lemma postComment_creates :
  postComment env now req db
  = (json (CreatedBody true (submittedStatus now req site user)
             (statusMessage (submittedStatus now req site user))) 200,
     afterSubmission now req db site user,
     webhookMessages env now req site user (DB.comments_seq db + 1)
       (submittedStatus now req site user)
     ++ emailMessages env req site user (afterSubmission now req db site user)).
Proof.
  unfold postComment. rewrite Htoken, Huser, Hsite.
  unfold DB.insert_comment, afterSubmission, submittedRow, submittedStatus,
    submittedScore, credit. cbv zeta.
  destruct (status_eqb _ approved); reflexivity.
Qed.

Lemma user_row : is_Some (user_of db (User.id user)).
Proof.
  unfold user_of. eapply first_is_Some; [exact Huser|]. apply Z.eqb_refl.
Qed.

Lemma site_row : is_Some (site_of db (Site.id site)).
Proof.
  unfold site_of. eapply first_is_Some; [exact Hsite|]. apply Z.eqb_refl.
Qed.

(** C1. The status assigned to a submission follows the decision order: the
    score is 0 when the spam filter is off; with moderation off the status is
    approved; otherwise a score at or above the threshold gives spam;
    otherwise a reputation below 10 gives pending; otherwise approved. The
    status is the one answered and the one stored in the new row. *)
Theorem C1_status_decision :
  exists (st : Status) (sc : Z),
    created (postComment env now req db) = Some st
    /\ (Comment.status <$> last (DB.comments (snd (fst (postComment env now req db)))))
       = Some st
    /\ (Comment.spam_score <$> last (DB.comments (snd (fst (postComment env now req db)))))
       = Some sc
    /\ (Site.spam_filter_enabled site = false -> sc = 0)
    /\ (Site.spam_filter_enabled site = true ->
        sc = calculateSpamScore now (content req) user)
    /\ (Site.moderation_enabled site = false -> st = approved)
    /\ (Site.moderation_enabled site = true ->
        Site.auto_approve_threshold site <= sc -> st = spam)
    /\ (Site.moderation_enabled site = true ->
        sc < Site.auto_approve_threshold site ->
        User.reputation user < 10 -> st = pending)
    /\ (Site.moderation_enabled site = true ->
        sc < Site.auto_approve_threshold site ->
        10 <= User.reputation user -> st = approved).
Proof.
  exists (submittedStatus now req site user), (submittedScore now req site user).
  rewrite postComment_creates. cbn [fst snd created body afterSubmission DB.comments].
  rewrite last_snoc. cbn [fmap option_fmap option_map submittedRow
                           Comment.status Comment.spam_score].
  unfold submittedStatus, submittedScore, determineStatus.
  repeat split.
  - by intros ->.
  - by intros ->.
  - by intros ->.
  - intros -> Hge.
    destruct (Z.leb_spec (Site.auto_approve_threshold site)
                (if Site.spam_filter_enabled site
                 then calculateSpamScore now (content req) user else 0));
      [done|lia].
  - intros -> Hlt Hrep.
    destruct (Z.leb_spec (Site.auto_approve_threshold site)
                (if Site.spam_filter_enabled site
                 then calculateSpamScore now (content req) user else 0));
      [lia|].
    destruct (Z.ltb_spec (User.reputation user) 10); [done|lia].
  - intros -> Hlt Hrep.
    destruct (Z.leb_spec (Site.auto_approve_threshold site)
                (if Site.spam_filter_enabled site
                 then calculateSpamScore now (content req) user else 0));
      [lia|].
    destruct (Z.ltb_spec (User.reputation user) 10); [lia|done].
Qed.

(** C5 (as amended). On every creation the site's comment counter goes up
    by 1, whatever the status; the author's reputation goes up by 1 exactly
    when the status is approved and is unchanged when it is pending or
    spam. *)
Theorem C5_creation_effects :
  exists (st : Status) (rep total : Z),
    created (postComment env now req db) = Some st
    /\ reputation_of db (User.id user) = Some rep
    /\ total_comments_of db (Site.id site) = Some total
    /\ total_comments_of (snd (fst (postComment env now req db))) (Site.id site)
       = Some (total + 1)
    /\ (st = approved ->
        reputation_of (snd (fst (postComment env now req db))) (User.id user)
        = Some (rep + 1))
    /\ (st = pending \/ st = spam ->
        reputation_of (snd (fst (postComment env now req db))) (User.id user)
        = Some rep).
Proof.
  destruct user_row as [u Hu]. destruct site_row as [s Hs].
  exists (submittedStatus now req site user), (User.reputation u),
    (Site.total_comments s).
  rewrite postComment_creates. cbn [fst snd created body].
  unfold reputation_of, total_comments_of. rewrite Hu, Hs.
  cbn [fmap option_fmap option_map].
  repeat split.
  - unfold site_of in *. cbn [afterSubmission DB.sites].
    rewrite first_update by reflexivity. by rewrite Hs.
  - intros Hst. unfold user_of in *. cbn [afterSubmission DB.users].
    rewrite Hst. cbn [status_eqb]. unfold credit.
    rewrite first_update by reflexivity. by rewrite Hu.
  - intros Hst. unfold user_of in *. cbn [afterSubmission DB.users].
    destruct Hst as [-> | ->]; cbn [status_eqb]; by rewrite Hu.
Qed.

(** C10. When the site has a webhook URL and the webhook secret is present,
    every created comment enqueues a [comment.created] webhook message that
    carries the assigned status, whatever that status is. *)
Theorem C10_webhook_any_status :
  truthy (Site.webhook_url site) = true ->
  truthy (WEBHOOK_SECRET env) = true ->
  exists st : Status,
    created (postComment env now req db) = Some st
    /\ existsb (is_webhook_created st) (snd (postComment env now req db)) = true.
Proof.
  intros Hurl Hsecret. exists (submittedStatus now req site user).
  rewrite postComment_creates. cbn [fst snd created body].
  split; [reflexivity|]. unfold webhookMessages. rewrite Hurl, Hsecret.
  cbn [andb app existsb is_webhook_created event comment_status].
  destruct (submittedStatus now req site user); reflexivity.
Qed.

(** C3 (as amended). An author whose account is 2 hours old and whose
    reputation is 0 posts a content whose only hits are one URL and one
    promotional phrase, on a site with moderation and the spam filter on and
    threshold 30: the score is 55 (10 for the phrase, 10 for the URL, 20 for
    the account age, 15 for the reputation below 10), the status is spam and
    no reputation is credited. *)
Theorem C3_promo_scenario :
  Site.moderation_enabled site = true ->
  Site.spam_filter_enabled site = true ->
  Site.auto_approve_threshold site = 30 ->
  User.created_at user = Some (now - 2 * 60 * 60 * 1000) ->
  User.reputation user = 0 ->
  hits urlPattern (content req) = 1 ->
  hits linkPattern (content req) = 1 ->
  hits phrasePattern (content req) = 1 ->
  hits vocabularyPattern (content req) = 0 ->
  hits capsPattern (content req) = 0 ->
  calculateSpamScore now (content req) user = 55
  /\ created (postComment env now req db) = Some spam
  /\ (Comment.spam_score <$> last (DB.comments (snd (fst (postComment env now req db)))))
     = Some 55
  /\ DB.users (snd (fst (postComment env now req db))) = DB.users db.
Proof.
  intros Hmod Hfilter Hthr Hage Hrep Hurl Hlink Hphrase Hvoc Hcaps.
  assert (calculateSpamScore now (content req) user = 55) as Hscore.
  { rewrite calculateSpamScore_sum, Hurl, Hlink, Hphrase, Hvoc, Hcaps, Hrep.
    unfold young. rewrite Hage. cbn [option_map num_lt].
    replace (now - (now - 2 * 60 * 60 * 1000)) with 7200000 by lia.
    reflexivity. }
  assert (submittedScore now req site user = 55) as Hsc.
  { unfold submittedScore. by rewrite Hfilter. }
  assert (submittedStatus now req site user = spam) as Hst.
  { unfold submittedStatus, determineStatus. by rewrite Hmod, Hthr, Hsc. }
  rewrite postComment_creates.
  cbn [fst snd created body afterSubmission DB.comments DB.users].
  rewrite last_snoc. cbn [fmap option_fmap option_map submittedRow
                           Comment.spam_score].
  rewrite Hst, Hsc. cbn [status_eqb]. by rewrite Hscore.
Qed.

End Submission.

(** ** ReputationLedger and the like toggle *)

Section Likes.
Variables (now1 now2 : Z) (commentId : Z) (user : User.t) (db : DB.t).
Variable comment : Comment.t.

(** The comment exists and the user has no like on it. *)
Hypothesis Hcomment : comment_of db commentId = Some comment.
Hypothesis Hfresh :
  DB.first
    (fun l => (Like.comment_id l =? commentId) && (Like.user_id l =? User.id user))
    (DB.comment_likes db) = None.

Lemma like_first :
  likeComment now1 commentId user db
  = (json (LikedBody true) 200, afterLike now1 commentId user comment db).
Proof.
  unfold likeComment. rewrite Hfresh. cbn [DB.with_likes DB.with_comments DB.comments].
  rewrite first_update by reflexivity.
  unfold comment_of in Hcomment. rewrite Hcomment. reflexivity.
Qed.

Lemma set_likes_back (c : Comment.t) :
  Comment.set_likes (fun n => n - 1) (Comment.set_likes (fun n => n + 1) c) = c.
Proof.
  destruct c. unfold Comment.set_likes. simpl. f_equal. lia.
Qed.

Lemma like_second :
  likeComment now2 commentId user (afterLike now1 commentId user comment db)
  = (json (LikedBody false) 200,
     DB.with_users (credit (Comment.user_id comment)) db).
Proof.
  unfold likeComment, afterLike. cbn [DB.comment_likes].
  rewrite (first_app_None _ _ _ Hfresh). unfold DB.first at 1.
  cbn [find Like.comment_id Like.user_id]. rewrite !Z.eqb_refl.
  cbn [andb DB.with_likes DB.with_comments DB.comment_likes DB.comments
       DB.users DB.sites DB.comments_seq DB.comment_flags].
  unfold DB.with_comments, DB.with_likes, DB.with_users.
  cbn [DB.comment_likes DB.comments DB.users DB.sites DB.comments_seq
       DB.comment_flags].
  rewrite delete_appended;
    [| exact Hfresh | cbn [Like.comment_id Like.user_id]; by rewrite !Z.eqb_refl].
  rewrite update_update_id; [| reflexivity | apply set_likes_back].
  destruct db; reflexivity.
Qed.

(** C8 (as amended). For a comment the user has not liked yet, two calls in
    succession answer liked:true and then liked:false, and leave the likes
    count, the comments, the like records and every other table as they
    were, except that the comment author's reputation stays 1 higher. *)
Theorem C8_like_toggle :
  let r1 := likeComment now1 commentId user db in
  let r2 := likeComment now2 commentId user (snd r1) in
  body (fst r1) = LikedBody true
  /\ body (fst r2) = LikedBody false
  /\ likes_of (snd r2) commentId = likes_of db commentId
  /\ snd r2
     = DB.with_users (credit (Comment.user_id comment)) db.
Proof.
  cbv zeta. rewrite like_first. cbn [fst snd]. rewrite like_second.
  cbn [fst snd body]. repeat split; reflexivity.
Qed.

(** C9. For a comment the user has not liked yet, a like followed by an
    unlike leaves the author's reputation exactly 1 higher than before, while
    the likes count is back at its original value. *)
Theorem C9_unlike_keeps_reputation (author : User.t) :
  user_of db (Comment.user_id comment) = Some author ->
  let r1 := likeComment now1 commentId user db in
  let r2 := likeComment now2 commentId user (snd r1) in
  body (fst r1) = LikedBody true
  /\ body (fst r2) = LikedBody false
  /\ reputation_of (snd r2) (Comment.user_id comment)
     = Some (User.reputation author + 1)
  /\ likes_of (snd r2) commentId = Some (Comment.likes comment).
Proof.
  intros Hauthor. cbv zeta. rewrite like_first. cbn [fst snd].
  rewrite like_second. cbn [fst snd body].
  repeat split.
  - unfold reputation_of, user_of. cbn [DB.with_users DB.users]. unfold credit.
    rewrite first_update by reflexivity.
    unfold user_of in Hauthor. by rewrite Hauthor.
  - unfold likes_of. change (comment_of (DB.with_users _ db) commentId)
      with (comment_of db commentId). by rewrite Hcomment.
Qed.

End Likes.

(** ** FlagAggregator *)

Section Flags.
Variables (now1 now2 : Z) (commentId : Z) (user : User.t) (db : DB.t).
Variables (reason1 reason2 : string) (comment : Comment.t).

(** The comment exists and the user has no flag on it. *)
Hypothesis Hcomment : comment_of db commentId = Some comment.
Hypothesis Hfresh :
  DB.first
    (fun f => (Flag.comment_id f =? commentId) && (Flag.user_id f =? User.id user))
    (DB.comment_flags db) = None.

Lemma flag_first :
  flagComment now1 commentId user reason1 db
  = (json (SuccessBody true) 200,
     afterFlag now1 commentId user reason1 comment db).
Proof.
  unfold flagComment. rewrite Hfresh.
  cbn [DB.with_flags DB.with_comments DB.comments].
  rewrite first_update by reflexivity.
  unfold comment_of in Hcomment. rewrite Hcomment.
  cbn [fmap option_fmap option_map Comment.set_flags Comment.flags].
  unfold afterFlag.
  destruct (3 <=? Comment.flags comment + 1); reflexivity.
Qed.

Lemma flag_second :
  flagComment now2 commentId user reason2
    (afterFlag now1 commentId user reason1 comment db)
  = (json (ErrorBody "You have already flagged this comment") 400,
     afterFlag now1 commentId user reason1 comment db).
Proof.
  unfold flagComment. unfold afterFlag at 1. cbn [DB.comment_flags].
  rewrite (first_app_None _ _ _ Hfresh). unfold DB.first.
  cbn [find Flag.comment_id Flag.user_id]. by rewrite !Z.eqb_refl.
Qed.

Lemma flagged_comment :
  comment_of (afterFlag now1 commentId user reason1 comment db) commentId
  = Some (flaggedComment comment).
Proof.
  unfold comment_of in *. unfold afterFlag, flaggedComment.
  cbn [DB.comments Comment.set_flags Comment.flags].
  destruct (3 <=? Comment.flags comment + 1).
  - rewrite !first_update by reflexivity. by rewrite Hcomment.
  - rewrite first_update by reflexivity. by rewrite Hcomment.
Qed.

(** C6. An accepted flag increments the flag count; when the count after the
    increment is the threshold 3 the status becomes pending, whatever it was
    before; an approved comment receiving its 2nd flag stays approved. *)
Theorem C6_flag_threshold :
  let r := flagComment now1 commentId user reason1 db in
  body (fst r) = SuccessBody true
  /\ flags_of (snd r) commentId = Some (Comment.flags comment + 1)
  /\ (Comment.flags comment + 1 = 3 -> status_of (snd r) commentId = Some pending)
  /\ (Comment.status comment = approved -> Comment.flags comment + 1 = 2 ->
      status_of (snd r) commentId = Some approved).
Proof.
  cbv zeta. rewrite flag_first. cbn [fst snd body].
  unfold flags_of, status_of. rewrite flagged_comment.
  unfold flaggedComment. cbn [Comment.set_flags Comment.flags].
  repeat split.
  - destruct (3 <=? Comment.flags comment + 1); reflexivity.
  - intros ->. reflexivity.
  - intros Hst ->. simpl. by rewrite Hst.
Qed.

(** C7. Flagging the same comment twice by the same user: the first call
    succeeds, the second is rejected with the duplicate error and changes
    nothing, so the flag count goes up by exactly 1 over the two calls. *)
Theorem C7_duplicate_flag :
  let r1 := flagComment now1 commentId user reason1 db in
  let r2 := flagComment now2 commentId user reason2 (snd r1) in
  fst r1 = json (SuccessBody true) 200
  /\ fst r2 = json (ErrorBody "You have already flagged this comment") 400
  /\ snd r2 = snd r1
  /\ flags_of (snd r2) commentId = Some (Comment.flags comment + 1)
  /\ flags_of db commentId = Some (Comment.flags comment).
Proof.
  cbv zeta. rewrite flag_first. cbn [fst snd]. rewrite flag_second.
  cbn [fst snd]. repeat split.
  - unfold flags_of. rewrite flagged_comment.
    unfold flaggedComment. cbn [Comment.set_flags Comment.flags].
    destruct (3 <=? Comment.flags comment + 1); reflexivity.
  - unfold flags_of. by rewrite Hcomment.
Qed.

End Flags.

(** ** The properties on the small installation *)

(** The examples of the specification for threshold 30. *)
Example determineStatus_examples :
  determineStatus blog regular 30 = spam
  /\ determineStatus blog regular 100 = spam
  /\ determineStatus blog (User.set_reputation (fun _ => 9) regular) 29 = pending
  /\ determineStatus blog regular 29 = approved.
Proof. repeat split. Qed.

Lemma C1_status_decision_witness :
  created (postComment env0 two_hours promo db0) = Some spam.
Proof.
  destruct (C1_status_decision env0 two_hours promo db0 2 newcomer blog
              eq_refl eq_refl eq_refl)
    as (st & sc & Hcreated & _ & _ & _ & Hscore & _ & Hspam & _).
  rewrite Hcreated. f_equal. apply Hspam; [reflexivity|].
  rewrite Hscore by reflexivity. vm_compute. discriminate.
Defined.

Lemma C3_promo_scenario_witness :
  calculateSpamScore two_hours (content promo) newcomer = 55
  /\ created (postComment env0 two_hours promo db0) = Some spam
  /\ (Comment.spam_score
        <$> last (DB.comments (snd (fst (postComment env0 two_hours promo db0)))))
     = Some 55
  /\ DB.users (snd (fst (postComment env0 two_hours promo db0))) = DB.users db0.
Proof.
  apply (C3_promo_scenario env0 two_hours promo db0 2 newcomer blog);
    reflexivity.
Defined.

(** C3 (as stated) fails: for an author created 2 hours ago with reputation 0
    and the content "buy now http://x.co", which has one URL and one
    promotional phrase and nothing else, the score is 55, not 30. *)
Lemma C3_counterexample :
  User.created_at newcomer = Some (two_hours - 2 * 60 * 60 * 1000)
  /\ User.reputation newcomer = 0
  /\ hits urlPattern (content promo) = 1
  /\ hits linkPattern (content promo) = 1
  /\ hits phrasePattern (content promo) = 1
  /\ calculateSpamScore two_hours (content promo) newcomer = 55
  /\ calculateSpamScore two_hours (content promo) newcomer <> 30.
Proof. vm_compute. repeat split; discriminate. Qed.

Lemma C5_creation_effects_witness :
  exists total : Z,
    total_comments_of db0 1 = Some total
    /\ total_comments_of (snd (fst (postComment env0 two_hours promo db0))) 1
       = Some (total + 1).
Proof.
  destruct (C5_creation_effects env0 two_hours promo db0 2 newcomer blog
              eq_refl eq_refl eq_refl)
    as (st & rep & total & _ & _ & Hbefore & Hafter & _).
  exists total. split; [exact Hbefore | exact Hafter].
Defined.

(** C5 (as stated) fails: a submission that is classified spam, and one that
    is left pending, each raise the site's comment counter from 0 to 1. *)
Lemma C5_counterexample :
  (let r := postComment env0 two_hours promo db0 in
   created r = Some spam
   /\ total_comments_of db0 1 = Some 0
   /\ total_comments_of (snd (fst r)) 1 = Some 1)
  /\ (let r := postComment env0 two_days plain db0 in
      created r = Some pending
      /\ total_comments_of db0 1 = Some 0
      /\ total_comments_of (snd (fst r)) 1 = Some 1).
Proof. vm_compute. repeat split. Qed.

Lemma C10_webhook_any_status_witness :
  exists st : Status,
    created (postComment env0 two_days plain db0) = Some st
    /\ existsb (is_webhook_created st) (snd (postComment env0 two_days plain db0))
       = true.
Proof.
  apply (C10_webhook_any_status env0 two_days plain db0 2 newcomer blog);
    reflexivity.
Defined.

(** The webhook goes out for a spam and for a pending comment alike. *)
Example webhook_for_spam_and_pending :
  existsb (is_webhook_created spam) (snd (postComment env0 two_hours promo db0))
  = true
  /\ existsb (is_webhook_created pending)
       (snd (postComment env0 two_days plain db0)) = true.
Proof. vm_compute. split; reflexivity. Qed.

Lemma C6_flag_threshold_witness :
  status_of db_two_flags 1 = Some approved
  /\ status_of (snd (flagComment 30 1 newcomer "spam" db_two_flags)) 1
     = Some pending.
Proof.
  split; [reflexivity|].
  destruct (C6_flag_threshold 30 1 newcomer db_two_flags "spam"
              (Comment.set_flags (fun _ => 2) welcome) eq_refl eq_refl)
    as (_ & _ & Hthird & _).
  apply Hthird. reflexivity.
Defined.

Lemma C7_duplicate_flag_witness :
  let r1 := flagComment 10 1 newcomer "spam" db0 in
  let r2 := flagComment 20 1 newcomer "again" (snd r1) in
  fst r1 = json (SuccessBody true) 200
  /\ fst r2 = json (ErrorBody "You have already flagged this comment") 400
  /\ snd r2 = snd r1
  /\ flags_of (snd r2) 1 = Some (Comment.flags welcome + 1)
  /\ flags_of db0 1 = Some (Comment.flags welcome).
Proof.
  apply (C7_duplicate_flag 10 20 1 newcomer db0 "spam" "again" welcome);
    reflexivity.
Defined.

Lemma C8_like_toggle_witness :
  let r1 := likeComment 10 1 newcomer db0 in
  let r2 := likeComment 20 1 newcomer (snd r1) in
  body (fst r1) = LikedBody true
  /\ body (fst r2) = LikedBody false
  /\ likes_of (snd r2) 1 = likes_of db0 1
  /\ snd r2 = DB.with_users (credit (Comment.user_id welcome)) db0.
Proof.
  apply (C8_like_toggle 10 20 1 newcomer db0 welcome); reflexivity.
Defined.

(** C8 (as stated) fails twice. After a like and an unlike the database is
    not what it was: the author's reputation went from 50 to 51. And when the
    user already likes the comment, the second of two calls answers
    liked:true. *)
Lemma C8_counterexample :
  (let r1 := likeComment 10 1 newcomer db0 in
   let r2 := likeComment 20 1 newcomer (snd r1) in
   snd r2 <> db0
   /\ reputation_of db0 3 = Some 50
   /\ reputation_of (snd r2) 3 = Some 51)
  /\ (let r1 := likeComment 20 1 newcomer db_liked in
      let r2 := likeComment 30 1 newcomer (snd r1) in
      body (fst r1) = LikedBody false /\ body (fst r2) = LikedBody true).
Proof.
  split; [|vm_compute; split; reflexivity].
  cbv zeta. split; [|vm_compute; split; reflexivity].
  intros Heq. apply (f_equal (fun d => reputation_of d 3)) in Heq.
  vm_compute in Heq. discriminate Heq.
Qed.

Lemma C9_unlike_keeps_reputation_witness :
  let r1 := likeComment 10 1 newcomer db0 in
  let r2 := likeComment 20 1 newcomer (snd r1) in
  body (fst r1) = LikedBody true
  /\ body (fst r2) = LikedBody false
  /\ reputation_of (snd r2) (Comment.user_id welcome)
     = Some (User.reputation regular + 1)
  /\ likes_of (snd r2) 1 = Some (Comment.likes welcome).
Proof.
  apply (C9_unlike_keeps_reputation 10 20 1 newcomer db0 welcome eq_refl eq_refl
           regular).
  reflexivity.
Defined.

(** * Further properties *)

(** ** RateLimiter: bounds, reclaiming and isolation *)

Section RateLimiterMore.
Import RateLimiter.
#[local] Arguments Nat.leb : simpl never.

Lemma cleanOldEntries_nonempty (now : Z) (requests : Requests) (key : string)
  (reqs : list Z) :
  cleanOldEntries now requests !! key = Some reqs -> reqs <> [].
Proof.
  unfold cleanOldEntries. rewrite lookup_omap.
  destruct (requests !! key) as [old|]; simpl; [|discriminate].
  destruct (List.filter (recent now) old) eqn:Hf; simpl; [discriminate|].
  intros [= <-]. discriminate.
Qed.

Lemma fetch_key_bounded (now_clean now : Z) (key : string) (requests : Requests) :
  (length (window requests key) <= 60)%nat ->
  (length (window (snd (fetch now_clean now key requests)) key) <= 60)%nat.
Proof.
  intros Hb. rewrite fetch_window. cbv zeta.
  set (kept := List.filter (recent now) _).
  destruct (Nat.leb_spec 60 (length kept)) as [Hge|Hlt]; cbn [snd].
  - rewrite window_cleanOldEntries.
    etransitivity; [apply filter_length_le | exact Hb].
  - rewrite window_insert, length_app. simpl. lia.
Qed.

Lemma fetch_bounded (now_clean now : Z) (key : string) (requests : Requests) :
  (forall k, (length (window requests k) <= 60)%nat) ->
  forall k, (length (window (snd (fetch now_clean now key requests)) k) <= 60)%nat.
Proof.
  intros Hb k. destruct (decide (key = k)) as [<-|Hne].
  - by apply fetch_key_bounded.
  - rewrite fetch_other_key by done.
    etransitivity; [apply filter_length_le | apply Hb].
Qed.

(** X1. Starting from the empty map, whatever calls are made, for whatever
    keys and with whatever clock readings, no key ever has more than 60
    timestamps on record. *)
Theorem X1_windows_bounded (calls : list (Z * Z * string)) (key : string) :
  (length (window (serve calls ∅) key) <= 60)%nat.
Proof.
  assert (forall (requests : Requests),
             (forall k, (length (window requests k) <= 60)%nat) ->
             forall k, (length (window (serve calls requests) k) <= 60)%nat)
    as Hgen.
  { induction calls as [|[[now_clean now] key0] calls IH]; intros requests Hb k;
      cbn [serve]; [apply Hb|].
    apply IH. by apply fetch_bounded. }
  apply Hgen. intros k. unfold window. rewrite lookup_empty. simpl. lia.
Qed.

(** X2. After any call no key is left with an empty list: a key of the
    map always has a timestamp on record, and a key other than the one
    called whose timestamps have all expired is gone from the map. *)
Theorem X2_idle_keys_reclaimed (now_clean now : Z) (key : string)
  (requests : Requests) (k : string) :
  (forall reqs, snd (fetch now_clean now key requests) !! k = Some reqs ->
                reqs <> [])
  /\ (k <> key ->
      Forall (fun ts => 60000 <= now_clean - ts) (window requests k) ->
      snd (fetch now_clean now key requests) !! k = None).
Proof.
  rewrite fetch_window. cbv zeta.
  set (kept := List.filter (recent now) _). split.
  - intros reqs. destruct (60 <=? length kept)%nat; cbn [snd].
    + apply cleanOldEntries_nonempty.
    + destruct (decide (key = k)) as [<-|Hne].
      * rewrite lookup_insert_eq. intros [= <-]. by destruct kept.
      * rewrite lookup_insert_ne by done. apply cleanOldEntries_nonempty.
  - intros Hne Hold.
    assert (cleanOldEntries now_clean requests !! k = None) as Hgone.
    { unfold cleanOldEntries. rewrite lookup_omap. unfold window in Hold.
      destruct (requests !! k) as [old|]; simpl in *; [|reflexivity].
      replace (List.filter (recent now_clean) old) with (@nil Z); [reflexivity|].
      symmetry. induction Hold as [|ts old Hts _ IH]; simpl; [reflexivity|].
      unfold recent at 1. destruct (Z.ltb_spec (now_clean - ts) 60000); [lia|].
      exact IH. }
    destruct (60 <=? length kept)%nat; cbn [snd]; [exact Hgone|].
    by rewrite lookup_insert_ne.
Qed.

Lemma X2_idle_keys_reclaimed_witness :
  snd (fetch 70000 70000 "/login" {["/register" := [1; 2]]}) !! "/register"
  = None.
Proof.
  apply (proj2 (X2_idle_keys_reclaimed 70000 70000 "/login"
                  {["/register" := [1; 2]]} "/register")).
  - discriminate.
  - vm_compute. repeat constructor; discriminate.
Defined.

(** X3. Limits are per client address and per path. A request changes no
    limiter but the one named by its address, the name being "unknown" when
    the header is missing or empty, and within that limiter the other paths
    only lose their expired timestamps. *)
Theorem X3_limiters_isolated (now_clean now : Z) (ip : option string)
  (pathname : string) (limiters : Limiters) :
  let after := snd (rateLimitMiddleware now_clean now ip pathname limiters) in
  let name := if truthy ip then default "unknown" ip else "unknown" in
  (forall other, other <> name -> after !! other = limiters !! other)
  /\ (forall path, path <> pathname ->
        window (default ∅ (after !! name)) path
        = List.filter (recent now_clean)
            (window (default ∅ (limiters !! name)) path)).
Proof.
  cbv zeta. unfold rateLimitMiddleware, or_default.
  set (name := if truthy ip then default "unknown" ip else "unknown").
  destruct (fetch now_clean now pathname (default ∅ (limiters !! name)))
    as [response limiter] eqn:Hfetch.
  cbn [snd]. split.
  - intros other Hne. by rewrite lookup_insert_ne.
  - intros path Hne. rewrite lookup_insert_eq. cbn [default].
    change limiter with (snd (response, limiter)). rewrite <- Hfetch.
    by apply fetch_other_key.
Qed.

Lemma X3_limiters_isolated_witness :
  snd (rateLimitMiddleware 5 5 None "/login" {["10.0.0.1" := {["/login" := [1]]}]})
    !! "10.0.0.1"
  = ({["10.0.0.1" := {["/login" := [1]]}]} : Limiters) !! "10.0.0.1".
Proof.
  apply (proj1 (X3_limiters_isolated 5 5 None "/login"
                  {["10.0.0.1" := {["/login" := [1]]}]})).
  discriminate.
Defined.

(** X4. A client that has 60 requests on record for a path in the last 60
    seconds gets 429 for the submission, whatever it submits: the database
    is untouched, nothing is enqueued and the request is not recorded. *)
Theorem X4_rate_exceeded_no_write (env : Env) (now_clean now_limit now : Z)
  (pathname : string) (req : CommentRequest) (limiters : Limiters) (db : DB.t) :
  let name := or_default (CF_Connecting_IP req) "unknown" in
  let limiter := default ∅ (limiters !! name) in
  (60 <= length (List.filter (recent now_limit)
                   (List.filter (recent now_clean) (window limiter pathname))))%nat ->
  submitRoute env now_clean now_limit now pathname req limiters db
  = (json (ErrorBody "Too many requests") 429,
     <[name := cleanOldEntries now_clean limiter]> limiters, db, []).
Proof.
  cbv zeta. intros Hfull. unfold submitRoute, rateLimitMiddleware.
  rewrite fetch_window. cbv zeta.
  destruct (Nat.leb_spec 60 (length (List.filter (recent now_limit)
                   (List.filter (recent now_clean)
                      (window (default ∅ (limiters !! or_default (CF_Connecting_IP req) "unknown"))
                         pathname))))); [|lia].
  reflexivity.
Qed.

(** X5. Below the quota the route answers what the handler answers and the
    request counts against the quota whatever that answer is, a rejection
    included: its time is appended to the client's record for the path. *)
Theorem X5_under_quota_counts (env : Env) (now_clean now_limit now : Z)
  (pathname : string) (req : CommentRequest) (limiters : Limiters) (db : DB.t) :
  let name := or_default (CF_Connecting_IP req) "unknown" in
  let limiter := default ∅ (limiters !! name) in
  let kept := List.filter (recent now_limit)
                (List.filter (recent now_clean) (window limiter pathname)) in
  let result := submitRoute env now_clean now_limit now pathname req limiters db in
  (length kept < 60)%nat ->
  (fst (fst (fst result)), snd (fst result), snd result)
  = postComment env now req db
  /\ window (default ∅ (snd (fst (fst result)) !! name)) pathname
     = kept ++ [now_limit].
Proof.
  cbv zeta. intros Hroom. unfold submitRoute, rateLimitMiddleware.
  rewrite fetch_window. cbv zeta.
  destruct (Nat.leb_spec 60 (length (List.filter (recent now_limit)
                   (List.filter (recent now_clean)
                      (window (default ∅ (limiters !! or_default (CF_Connecting_IP req) "unknown"))
                         pathname))))); [lia|].
  change (negb (status OK =? 429)) with true. cbv iota.
  destruct (postComment env now req db) as [[response db'] messages].
  cbn [fst snd]. split; [reflexivity|].
  rewrite lookup_insert_eq. cbn [default]. apply window_insert.
Qed.

Lemma X4_rate_exceeded_no_write_witness :
  submitRoute env0 10 10 10 "/api/comments/key-1/hello-world" promo
    {["unknown" := {["/api/comments/key-1/hello-world" := repeat 0 60]}]} db0
  = (json (ErrorBody "Too many requests") 429,
     <["unknown" :=
         cleanOldEntries 10
           (default ∅
              (({["unknown" := {["/api/comments/key-1/hello-world" := repeat 0 60]}]}
                : Limiters) !! "unknown"))]>
       {["unknown" := {["/api/comments/key-1/hello-world" := repeat 0 60]}]},
     db0, []).
Proof.
  apply (X4_rate_exceeded_no_write env0 10 10 10
           "/api/comments/key-1/hello-world" promo
           {["unknown" := {["/api/comments/key-1/hello-world" := repeat 0 60]}]}
           db0).
  vm_compute. lia.
Defined.

Lemma X5_under_quota_counts_witness :
  let result :=
    submitRoute env0 10 10 two_hours "/api/comments/key-1/hello-world" promo ∅
      db0 in
  fst (fst (fst result)) = fst (fst (postComment env0 two_hours promo db0))
  /\ window (default ∅ (snd (fst (fst result)) !! "unknown"))
       "/api/comments/key-1/hello-world" = [10].
Proof.
  destruct (X5_under_quota_counts env0 10 10 two_hours
              "/api/comments/key-1/hello-world" promo ∅ db0) as [Hsame Hwin].
  - vm_compute. lia.
  - split; [exact (f_equal (fun r => fst (fst r)) Hsame) | exact Hwin].
Defined.

End RateLimiterMore.

(** ** SpamScorer: range, blind spots and lock-outs *)

Section ScorerMore.
Import RegExp.

(** X6. The score of every content and author, at every clock reading, lies
    between 0 and 100. *)
Theorem X6_score_range (now : Z) (content : list N) (user : User.t) :
  0 <= calculateSpamScore now content user <= 100.
Proof. apply calculateSpamScore_range. Qed.

(** A regular expression that needs a code unit of a kind the string does
    not have matches nowhere in it. *)
Lemma needs_no_match (P : N -> bool) (s : list N) (r : regex) :
  Forall (fun c => P c = false) s ->
  needs P r ->
  forall (i : nat) (k : nat -> option nat), rmatch r s i k = None.
Proof.
  intros Hs. induction r as [p| | |r1 IH1 r2 IH2|r1 IH1 r2 IH2|r1 IH1|r1 IH1];
    cbn [needs]; intros Hr i k; try contradiction; cbn [rmatch].
  - destruct (s !! i) as [c|] eqn:Hc; [|reflexivity].
    destruct (p c) eqn:Hp; [|reflexivity].
    apply Hr in Hp. apply list_elem_of_lookup_2 in Hc.
    rewrite Forall_forall in Hs. apply Hs in Hc. congruence.
  - destruct Hr as [Hr|Hr]; [by apply IH1|].
    destruct (rmatch r1 s i _) as [e|] eqn:Hm; [|reflexivity].
    apply rmatch_forward in Hm as (j & _ & Hm). by rewrite IH2 in Hm.
  - destruct Hr as [Hr1 Hr2]. by rewrite IH1, IH2.
Qed.

Lemma no_match_no_hits (s : list N) (r : regex) :
  (forall (i : nat) (k : nat -> option nat), rmatch r s i k = None) ->
  hits r s = 0.
Proof.
  intros Hr.
  assert (forall fuel i, search fuel r s i = None) as Hsearch.
  { induction fuel as [|fuel IH]; intros i; cbn [search]; [reflexivity|].
    by rewrite Hr. }
  unfold hits, js_match. cbn [matches_from]. unfold exec.
  by rewrite Hsearch.
Qed.

Lemma Char_needs_letter (ignoreCase : bool) (a : ascii) :
  is_letter (N_of_ascii a) = true -> needs is_letter (Char ignoreCase a).
Proof.
  intros Ha. unfold Char.
  destruct (ignoreCase && in_range 97 122 (N_of_ascii a)) eqn:Hlow;
    [|destruct (ignoreCase && in_range 65 90 (N_of_ascii a)) eqn:Hup];
    cbn [needs]; intros c Hc.
  - apply andb_true_iff in Hlow as [_ Hlow].
    unfold is_letter, in_range in *.
    apply orb_true_iff in Hc as [Hc|Hc]; apply N.eqb_eq in Hc; subst c;
      apply andb_true_iff in Hlow as [H1 H2];
      apply N.leb_le in H1; apply N.leb_le in H2;
      apply orb_true_iff; [left|right]; apply andb_true_iff;
      split; apply N.leb_le; lia.
  - apply andb_true_iff in Hup as [_ Hup].
    unfold is_letter, in_range in *.
    apply orb_true_iff in Hc as [Hc|Hc]; apply N.eqb_eq in Hc; subst c;
      apply andb_true_iff in Hup as [H1 H2];
      apply N.leb_le in H1; apply N.leb_le in H2;
      apply orb_true_iff; [right|left]; apply andb_true_iff;
      split; apply N.leb_le; lia.
  - apply N.eqb_eq in Hc. by subst c.
Qed.

Lemma patterns_need_letters :
  needs is_letter vocabularyPattern /\ needs is_letter phrasePattern
  /\ needs is_letter urlPattern /\ needs is_letter capsPattern
  /\ needs is_letter linkPattern.
Proof.
  repeat split; cbn [vocabularyPattern phrasePattern urlPattern capsPattern
                     linkPattern needs Alts Lit AtLeast].
  - right. left.
    repeat split; left; by apply Char_needs_letter.
  - right. left.
    repeat split; left; by apply Char_needs_letter.
  - left. left. by apply Char_needs_letter.
  - right. left. left. intros c Hc. unfold is_letter. by rewrite Hc, orb_true_r.
  - left. left. by apply Char_needs_letter.
Qed.

(** X7. A content without ASCII letters (the empty content, digits,
    punctuation, text in another script) hits no pattern: its score is only
    what the author brings, 20 for an account younger than 24 hours plus 15
    for a reputation below 10. *)
Theorem X7_letterless_content (now : Z) (content : list N) (user : User.t) :
  Forall (fun c => is_letter c = false) content ->
  calculateSpamScore now content user
  = (if young now user then 20 else 0)
    + (if User.reputation user <? 10 then 15 else 0).
Proof.
  intros Hcontent. rewrite calculateSpamScore_sum.
  destruct patterns_need_letters as (Hv & Hp & Hu & Hc & Hl).
  rewrite !(no_match_no_hits content) by (by apply (needs_no_match is_letter)).
  destruct (young now user), (User.reputation user <? 10); reflexivity.
Qed.

Lemma X7_letterless_content_witness :
  calculateSpamScore two_hours (units "100% :-) 2024") newcomer
  = (if young two_hours newcomer then 20 else 0)
    + (if User.reputation newcomer <? 10 then 15 else 0).
Proof.
  apply (X7_letterless_content two_hours (units "100% :-) 2024") newcomer).
  vm_compute. repeat constructor.
Defined.

End ScorerMore.

(** ** The submission handler: lock-outs, rejections and what is enqueued *)

Section SubmissionMore.
Variables (env : Env) (now : Z) (req : CommentRequest) (db : DB.t).
Variables (sub : Z) (user : User.t) (site : Site.t).

Hypothesis Htoken : token req = Payload sub.
Hypothesis Huser :
  DB.first (fun u => (User.id u =? sub) && negb (User.is_banned u))
    (DB.users db) = Some user.
Hypothesis Hsite :
  DB.first (fun s => String.eqb (Site.api_key s) (siteKey req)) (DB.sites db)
  = Some site.

Lemma created_status :
  created (postComment env now req db) = Some (submittedStatus now req site user).
Proof.
  by rewrite (postComment_creates env now req db sub user site).
Qed.

Lemma spam_at_threshold :
  Site.moderation_enabled site = true ->
  Site.auto_approve_threshold site <= submittedScore now req site user ->
  created (postComment env now req db) = Some spam.
Proof.
  intros Hmod Hthr. rewrite created_status.
  unfold submittedStatus, determineStatus. rewrite Hmod.
  by destruct (Z.leb_spec (Site.auto_approve_threshold site)
                 (submittedScore now req site user)); [|lia].
Qed.

(** X8. With moderation and the spam filter on and a threshold of 45 or
    less, a content with three or more links is classified spam, whoever the
    author is. *)
Theorem X8_link_flood_is_spam :
  Site.moderation_enabled site = true ->
  Site.spam_filter_enabled site = true ->
  Site.auto_approve_threshold site <= 45 ->
  3 <= hits linkPattern (content req) ->
  created (postComment env now req db) = Some spam.
Proof.
  intros Hmod Hfilter Hthr Hlinks. apply spam_at_threshold; [exact Hmod|].
  unfold submittedScore. rewrite Hfilter, calculateSpamScore_sum.
  pose proof (hits_nonneg vocabularyPattern (content req)).
  pose proof (hits_nonneg phrasePattern (content req)).
  pose proof (hits_nonneg urlPattern (content req)).
  pose proof (hits_nonneg capsPattern (content req)).
  destruct (Z.ltb_spec 2 (hits linkPattern (content req))); [|lia].
  destruct (young now user), (User.reputation user <? 10); lia.
Qed.

(** X9. With moderation and the spam filter on and a threshold of 35 or
    less (the default is 30), every submission of an author whose account is
    younger than 24 hours and whose reputation is below 10 is classified
    spam, whatever the content. *)
Theorem X9_newcomer_is_spam :
  Site.moderation_enabled site = true ->
  Site.spam_filter_enabled site = true ->
  Site.auto_approve_threshold site <= 35 ->
  young now user = true ->
  User.reputation user < 10 ->
  created (postComment env now req db) = Some spam.
Proof.
  intros Hmod Hfilter Hthr Hyoung Hrep. apply spam_at_threshold; [exact Hmod|].
  unfold submittedScore. rewrite Hfilter, calculateSpamScore_sum, Hyoung.
  pose proof (hits_nonneg vocabularyPattern (content req)).
  pose proof (hits_nonneg phrasePattern (content req)).
  pose proof (hits_nonneg urlPattern (content req)).
  pose proof (hits_nonneg capsPattern (content req)).
  pose proof (hits_nonneg linkPattern (content req)).
  destruct (Z.ltb_spec (User.reputation user) 10); [|lia].
  destruct (2 <? hits linkPattern (content req)); lia.
Qed.

(** X10. With moderation on and a threshold of 0 or less every submission is
    classified spam, also when the spam filter is off. *)
Theorem X10_zero_threshold_is_spam :
  Site.moderation_enabled site = true ->
  Site.auto_approve_threshold site <= 0 ->
  created (postComment env now req db) = Some spam.
Proof.
  intros Hmod Hthr. apply spam_at_threshold; [exact Hmod|].
  unfold submittedScore. destruct (Site.spam_filter_enabled site); [|lia].
  pose proof (calculateSpamScore_range now (content req) user). lia.
Qed.

(** X11. On a site with moderation on, a submission of an author whose
    reputation is below 10 never earns reputation: it is spam or pending, and
    the users table is left as it was. *)
Theorem X11_low_reputation_never_credited :
  Site.moderation_enabled site = true ->
  User.reputation user < 10 ->
  (created (postComment env now req db) = Some spam
   \/ created (postComment env now req db) = Some pending)
  /\ DB.users (snd (fst (postComment env now req db))) = DB.users db.
Proof.
  intros Hmod Hrep. rewrite created_status.
  rewrite (postComment_creates env now req db sub user site) by assumption.
  cbn [fst snd afterSubmission DB.users].
  unfold submittedStatus, determineStatus. rewrite Hmod.
  destruct (Site.auto_approve_threshold site <=? submittedScore now req site user).
  - split; [by left | reflexivity].
  - destruct (Z.ltb_spec (User.reputation user) 10); [|lia].
    split; [by right | reflexivity].
Qed.

(** X12. Without a webhook URL on the site, or without the webhook secret in
    the environment, a created comment enqueues no webhook message. *)
Theorem X12_no_webhook_unless_configured :
  truthy (Site.webhook_url site) && truthy (WEBHOOK_SECRET env) = false ->
  is_Some (created (postComment env now req db))
  /\ existsb is_webhook (snd (postComment env now req db)) = false.
Proof.
  intros Hoff. rewrite created_status. split; [by eexists|].
  rewrite (postComment_creates env now req db sub user site) by assumption.
  cbn [snd]. unfold webhookMessages, emailMessages. rewrite Hoff. cbn [app].
  destruct (truthy (RESEND_API_KEY env)); [|reflexivity].
  destruct (siteOwner _ _) as [o|]; [|reflexivity].
  destruct (User.email_notifications o); reflexivity.
Qed.

End SubmissionMore.

Lemma X8_link_flood_is_spam_witness :
  created (postComment env0 two_days linky db0) = Some spam.
Proof.
  apply (X8_link_flood_is_spam env0 two_days linky db0 3 regular blog);
    try reflexivity; vm_compute; discriminate.
Defined.

Lemma X9_newcomer_is_spam_witness :
  created (postComment env0 two_hours plain db0) = Some spam.
Proof.
  apply (X9_newcomer_is_spam env0 two_hours plain db0 2 newcomer blog);
    try reflexivity; vm_compute; discriminate.
Defined.

Lemma X10_zero_threshold_is_spam_witness :
  created (postComment env0 two_days plain db_strict) = Some spam.
Proof.
  apply (X10_zero_threshold_is_spam env0 two_days plain db_strict 2 newcomer
           (Site.mk 1 1 "example.com" "Blog" "key-1" None true 0 false false 0));
    try reflexivity; vm_compute; discriminate.
Defined.

Lemma X11_low_reputation_never_credited_witness :
  (created (postComment env0 two_days plain db0) = Some spam
   \/ created (postComment env0 two_days plain db0) = Some pending)
  /\ DB.users (snd (fst (postComment env0 two_days plain db0))) = DB.users db0.
Proof.
  apply (X11_low_reputation_never_credited env0 two_days plain db0 2 newcomer
           blog); try reflexivity.
Defined.

Lemma X12_no_webhook_unless_configured_witness :
  is_Some (created (postComment env_mail two_days plain db0))
  /\ existsb is_webhook (snd (postComment env_mail two_days plain db0)) = false.
Proof.
  apply (X12_no_webhook_unless_configured env_mail two_days plain db0 2
           newcomer blog); reflexivity.
Defined.

(** ** The submission handler on any request *)

Section SubmissionAny.
Variables (env : Env) (now : Z) (req : CommentRequest) (db : DB.t).

(** The handler either rejects and changes nothing, or runs as in
    [postComment_creates]. *)
Lemma postComment_cases :
  (created (postComment env now req db) = None
   /\ snd (fst (postComment env now req db)) = db
   /\ snd (postComment env now req db) = []
   /\ (code (fst (fst (postComment env now req db))) = 401
       \/ code (fst (fst (postComment env now req db))) = 403
       \/ code (fst (fst (postComment env now req db))) = 404))
  \/ (exists sub user site,
         token req = Payload sub
         /\ DB.first (fun u => (User.id u =? sub) && negb (User.is_banned u))
              (DB.users db) = Some user
         /\ DB.first (fun s => String.eqb (Site.api_key s) (siteKey req))
              (DB.sites db) = Some site).
Proof.
  unfold postComment.
  destruct (token req) as [| |sub] eqn:Htoken;
    [left; cbn; repeat split; by left
    |left; cbn; repeat split; by left|].
  destruct (DB.first _ (DB.users db)) as [user|] eqn:Huser;
    [|left; cbn; repeat split; right; by left].
  destruct (DB.first _ (DB.sites db)) as [site|] eqn:Hsite;
    [|left; cbn; repeat split; right; by right].
  right. by exists sub, user, site.
Qed.


(** X14. A banned account cannot submit: when every row with the id of the
    token is banned, the answer is 403 and nothing is written. *)
Theorem X14_banned_cannot_submit (sub : Z) :
  token req = Payload sub ->
  Forall (fun u => User.id u = sub -> User.is_banned u = true) (DB.users db) ->
  postComment env now req db
  = (json (ErrorBody "User not found or banned") 403, db, []).
Proof.
  intros Htoken Hbanned. unfold postComment. rewrite Htoken.
  assert (DB.first (fun u => (User.id u =? sub) && negb (User.is_banned u))
            (DB.users db) = None) as ->; [|reflexivity].
  unfold DB.first. induction Hbanned as [|u users Hu _ IH]; cbn [find];
    [reflexivity|].
  destruct (Z.eqb_spec (User.id u) sub) as [Heq|Hne]; cbn [andb]; [|exact IH].
  rewrite (Hu Heq). exact IH.
Qed.

(** X15. The only e-mail notice a submission enqueues goes to the owner of
    the site, who has notifications on, carries at most the first 200 code
    units of the content, and is sent only when the mail key is set. *)
Theorem X15_email_notice (m : Message) (to site_name slug author : string)
  (excerpt : list N) :
  m ∈ snd (postComment env now req db) ->
  m = NewCommentMessage to site_name slug author excerpt ->
  truthy (RESEND_API_KEY env) = true
  /\ excerpt = take 200 (content req)
  /\ (length excerpt <= 200)%nat
  /\ exists (site : Site.t) (owner : User.t),
       DB.first (fun s => String.eqb (Site.api_key s) (siteKey req))
         (DB.sites db) = Some site
       /\ siteOwner (Site.id site) (snd (fst (postComment env now req db)))
          = Some owner
       /\ User.email_notifications owner = true
       /\ to = User.email owner.
Proof.
  intros Hin ->.
  destruct postComment_cases as [(_ & _ & Hnil & _)|(sub & user & site & Ht & Hu & Hs)].
  { rewrite Hnil in Hin. by apply elem_of_nil in Hin. }
  rewrite (postComment_creates env now req db sub user site Ht Hu Hs) in Hin |- *.
  cbn [fst snd] in *. apply elem_of_app in Hin as [Hin|Hin].
  - unfold webhookMessages in Hin.
    destruct (truthy (Site.webhook_url site) && truthy (WEBHOOK_SECRET env)).
    + apply list_elem_of_singleton in Hin. discriminate Hin.
    + by apply elem_of_nil in Hin.
  - unfold emailMessages in Hin.
    destruct (truthy (RESEND_API_KEY env)); [|by apply elem_of_nil in Hin].
    destruct (siteOwner _ _) as [owner|] eqn:Howner;
      [|by apply elem_of_nil in Hin].
    destruct (User.email_notifications owner) eqn:Hnotify;
      [|by apply elem_of_nil in Hin].
    apply list_elem_of_singleton in Hin. injection Hin as -> _ _ _ ->.
    repeat split.
    + rewrite length_take. lia.
    + by exists site, owner.
Qed.

End SubmissionAny.

(** ** Likes and flags: what the handlers keep and what they leave alone *)

Section TableMore.
Context {A B : Type}.

Lemma map_update (g : A -> B) (w : A -> bool) (f : A -> A) (rows : list A) :
  (forall r, g (f r) = g r) -> List.map g (DB.update w f rows) = List.map g rows.
Proof.
  intros Hg. unfold DB.update. rewrite List.map_map. apply List.map_ext.
  intros r. by destruct (w r).
Qed.

Lemma filter_filter_implied (p q : A -> bool) (rows : list A) :
  (forall r, p r = true -> q r = true) ->
  List.filter p (List.filter q rows) = List.filter p rows.
Proof.
  intros Hpq. induction rows as [|r rows IH]; cbn [List.filter]; [reflexivity|].
  destruct (q r) eqn:Hq; cbn [List.filter].
  - destruct (p r); by rewrite IH.
  - destruct (p r) eqn:Hp; [|exact IH]. apply Hpq in Hp. congruence.
Qed.

Lemma NoDup_map_filter (g : A -> B) (p : A -> bool) (rows : list A) :
  NoDup (List.map g rows) -> NoDup (List.map g (List.filter p rows)).
Proof.
  induction rows as [|r rows IH]; cbn [List.map List.filter]; [trivial|].
  intros Hnd. apply NoDup_cons in Hnd as [Hnotin Hnd].
  destruct (p r); cbn [List.map]; [|by apply IH].
  apply NoDup_cons. split; [|by apply IH].
  intros Hin. apply Hnotin. apply list_elem_of_fmap in Hin as (x & -> & Hx).
  apply list_elem_of_fmap. exists x. split; [reflexivity|].
  apply list_elem_of_In. apply list_elem_of_In in Hx.
  by apply List.filter_In in Hx as [Hx _].
Qed.

End TableMore.

Section LikeFlagMore.
Variables (now : Z) (commentId : Z) (user : User.t) (db : DB.t).

(** The comments after a like or an unlike: one update of the [likes]
    column. *)
Lemma likeComment_comments :
  exists f : Z -> Z,
    DB.comments (snd (likeComment now commentId user db))
    = DB.update (fun c => Comment.id c =? commentId) (Comment.set_likes f)
        (DB.comments db).
Proof.
  unfold likeComment. destruct (DB.first _ (DB.comment_likes db)).
  - by exists (fun n => n - 1).
  - exists (fun n => n + 1). cbn [DB.with_likes DB.with_comments DB.comments].
    by destruct (DB.first _ _).
Qed.

Lemma likeComment_seq :
  DB.comments_seq (snd (likeComment now commentId user db)) = DB.comments_seq db.
Proof.
  unfold likeComment. destruct (DB.first _ (DB.comment_likes db)); [reflexivity|].
  cbn [DB.with_likes DB.with_comments DB.comments snd].
  by destruct (DB.first _ _).
Qed.

(** X16. A like or an unlike never moderates: the sites, the flag records
    and the id counter are untouched, the comments change in their [likes]
    column at most and the users in their [reputation] column at most. *)
Theorem X16_like_frame :
  let db' := snd (likeComment now commentId user db) in
  DB.sites db' = DB.sites db
  /\ DB.comment_flags db' = DB.comment_flags db
  /\ DB.comments_seq db' = DB.comments_seq db
  /\ List.map (Comment.set_likes (fun _ => 0)) (DB.comments db')
     = List.map (Comment.set_likes (fun _ => 0)) (DB.comments db)
  /\ List.map (User.set_reputation (fun _ => 0)) (DB.users db')
     = List.map (User.set_reputation (fun _ => 0)) (DB.users db).
Proof.
  cbv zeta. destruct likeComment_comments as [f Hf]. rewrite Hf.
  rewrite map_update by reflexivity. clear f Hf.
  unfold likeComment. destruct (DB.first _ (DB.comment_likes db)).
  - repeat split.
  - cbn [DB.with_likes DB.with_comments DB.comments snd].
    destruct (DB.first _ _); cbn [DB.with_users DB.sites DB.comment_flags
                                  DB.comments_seq DB.users];
      repeat split.
    by rewrite map_update.
Qed.

(** The comments after a flag: unchanged, or one update of the [flags]
    column, or that followed by an update of the [status] column. *)
Lemma flagComment_comments (reason : string) :
  let w := fun c => Comment.id c =? commentId in
  let counted := DB.update w (Comment.set_flags (fun n => n + 1)) (DB.comments db) in
  DB.comments (snd (flagComment now commentId user reason db)) = DB.comments db
  \/ DB.comments (snd (flagComment now commentId user reason db)) = counted
  \/ DB.comments (snd (flagComment now commentId user reason db))
     = DB.update w (Comment.set_status pending) counted.
Proof.
  cbv zeta. unfold flagComment. destruct (DB.first _ (DB.comment_flags db)).
  - by left.
  - cbn [DB.with_flags DB.with_comments DB.comments].
    destruct (DB.first _ _) as [c|]; [|by right; left].
    destruct (3 <=? Comment.flags c); [by right; right | by right; left].
Qed.

Lemma flagComment_seq (reason : string) :
  DB.comments_seq (snd (flagComment now commentId user reason db))
  = DB.comments_seq db.
Proof.
  unfold flagComment. destruct (DB.first _ (DB.comment_flags db)); [reflexivity|].
  cbn [DB.with_flags DB.with_comments DB.comments].
  destruct (DB.first _ _) as [c|]; [|reflexivity].
  by destruct (3 <=? Comment.flags c).
Qed.

(** X17. A flag, accepted or not, never touches reputation or likes: the
    users, the sites, the like records and the id counter are untouched, and
    the comments change in their [flags] and [status] columns at most. *)
Theorem X17_flag_frame (reason : string) :
  let db' := snd (flagComment now commentId user reason db) in
  DB.users db' = DB.users db
  /\ DB.sites db' = DB.sites db
  /\ DB.comment_likes db' = DB.comment_likes db
  /\ DB.comments_seq db' = DB.comments_seq db
  /\ List.map (fun c => Comment.set_status pending (Comment.set_flags (fun _ => 0) c))
       (DB.comments db')
     = List.map (fun c => Comment.set_status pending (Comment.set_flags (fun _ => 0) c))
         (DB.comments db).
Proof.
  cbv zeta. split; [|split; [|split; [|split]]].
  5:{ destruct (flagComment_comments reason) as [->|[->| ->]];
        rewrite ?map_update; reflexivity. }
  all: unfold flagComment; destruct (DB.first _ (DB.comment_flags db));
    [reflexivity|];
    cbn [DB.with_flags DB.with_comments DB.comments];
    destruct (DB.first _ _) as [c|]; [|reflexivity];
    destruct (3 <=? Comment.flags c); reflexivity.
Qed.

(** X18. Comment ids stay pairwise distinct and below the id counter under
    a submission, a like and a flag, whatever the request. *)
Theorem X18_comment_ids_kept (env : Env) (req : CommentRequest) (reason : string) :
  comment_ids_ok db ->
  comment_ids_ok (snd (fst (postComment env now req db)))
  /\ comment_ids_ok (snd (likeComment now commentId user db))
  /\ comment_ids_ok (snd (flagComment now commentId user reason db)).
Proof.
  assert (forall db1 db2,
             List.map Comment.id (DB.comments db2) = List.map Comment.id (DB.comments db1) ->
             DB.comments_seq db2 = DB.comments_seq db1 ->
             comment_ids_ok db1 -> comment_ids_ok db2) as Hsame.
  { intros db1 db2 Hids Hseq [Hnd Hle]. split; [by rewrite Hids|].
    rewrite Hseq. rewrite Forall_forall in Hle |- *. intros c Hc.
    assert (Comment.id c ∈ List.map Comment.id (DB.comments db1)) as Hin.
    { rewrite <- Hids. apply list_elem_of_fmap. by exists c. }
    apply list_elem_of_fmap in Hin as (c' & -> & Hc'). by apply Hle. }
  intros Hok. split; [|split].
  - destruct (postComment_cases env now req db)
      as [(_ & -> & _)|(sub & u & s & Ht & Hu & Hs)]; [exact Hok|].
    rewrite (postComment_creates env now req db sub u s Ht Hu Hs).
    cbn [fst snd]. destruct Hok as [Hnd Hle]. unfold comment_ids_ok.
    cbn [afterSubmission DB.comments DB.comments_seq].
    split.
    + rewrite List.map_app. cbn [List.map submittedRow Comment.id].
      apply NoDup_app. split; [exact Hnd|]. split; [|apply NoDup_singleton].
      intros x Hx Hin. apply list_elem_of_singleton in Hin. subst x.
      apply list_elem_of_fmap in Hx as (c & Hc & Hcin).
      rewrite Forall_forall in Hle. apply Hle in Hcin. lia.
    + apply Forall_app. split.
      * eapply Forall_impl; [exact Hle|]. intros c Hc. simpl in Hc. lia.
      * constructor; [|constructor]. cbn [submittedRow Comment.id]. lia.
  - apply (Hsame db); [| |exact Hok].
    + destruct likeComment_comments as [f ->]. by apply map_update.
    + apply likeComment_seq.
  - apply (Hsame db); [| |exact Hok].
    + destruct (flagComment_comments reason) as [->|[->| ->]];
        rewrite ?map_update; reflexivity.
    + apply flagComment_seq.
Qed.

End LikeFlagMore.

(** ** Counters and records agree *)

Section LikeCounter.
Variables (now : Z) (commentId : Z) (user : User.t).

#[local] Abbreviation mine :=
  (fun l : Like.t =>
     (Like.comment_id l =? commentId) && (Like.user_id l =? User.id user)).
#[local] Abbreviation pair_of :=
  (fun l : Like.t => (Like.comment_id l, Like.user_id l)).
#[local] Abbreviation on c :=
  (fun l : Like.t => Like.comment_id l =? c).

Lemma mine_pair (l : Like.t) :
  mine l = true <-> pair_of l = (commentId, User.id user).
Proof.
  rewrite andb_true_iff, !Z.eqb_eq. split.
  - intros [-> ->]. reflexivity.
  - intros [= -> ->]. done.
Qed.

Lemma not_mine_not_in (rows : list Like.t) :
  DB.first mine rows = None ->
  (commentId, User.id user) ∉ List.map pair_of rows.
Proof.
  intros Hnone Hin. apply list_elem_of_fmap in Hin as (l & Hl & Hlin).
  apply list_elem_of_In in Hlin.
  pose proof (find_none _ _ Hnone _ Hlin) as Hfalse. cbv beta in Hfalse.
  symmetry in Hl. apply mine_pair in Hl. congruence.
Qed.

Lemma not_in_not_mine (rows : list Like.t) :
  (commentId, User.id user) ∉ List.map pair_of rows ->
  List.filter (fun l => negb (mine l)) rows = rows.
Proof.
  induction rows as [|l rows IH]; cbn [List.filter List.map]; [reflexivity|].
  intros Hnotin. apply not_elem_of_cons in Hnotin as [Hne Hnotin].
  destruct (mine l) eqn:Hl.
  - apply mine_pair in Hl. congruence.
  - cbn [negb]. by rewrite IH.
Qed.

(** Deleting the one like of the user takes one row off the comment. *)
Lemma delete_one (rows : list Like.t) (existing : Like.t) :
  NoDup (List.map pair_of rows) ->
  DB.first mine rows = Some existing ->
  length (List.filter (on commentId) rows)
  = S (length (List.filter (on commentId) (DB.delete mine rows))).
Proof.
  unfold DB.first, DB.delete.
  induction rows as [|l rows IH]; cbn [find List.map List.filter];
    [discriminate|].
  intros Hnd Hfind. apply NoDup_cons in Hnd as [Hnotin Hnd].
  destruct (mine l) eqn:Hl; cbn [negb].
  - pose proof Hl as Hpair. apply mine_pair in Hpair.
    cbv beta in Hpair. rewrite Hpair in Hnotin.
    rewrite (not_in_not_mine rows Hnotin).
    apply andb_true_iff in Hl as [Hc _]. cbv beta. by rewrite Hc.
  - cbn [List.filter]. destruct (Like.comment_id l =? commentId); cbn [length];
      by rewrite (IH Hnd Hfind).
Qed.

Lemma like_tables (db : DB.t) :
  DB.first mine (DB.comment_likes db) = None ->
  DB.comment_likes (snd (likeComment now commentId user db))
  = DB.comment_likes db ++ [Like.mk commentId (User.id user) now]
  /\ DB.comments (snd (likeComment now commentId user db))
     = DB.update (fun c => Comment.id c =? commentId)
         (Comment.set_likes (fun n => n + 1)) (DB.comments db).
Proof.
  intros Hfind. unfold likeComment. cbv zeta. rewrite Hfind.
  destruct (DB.first (fun c => Comment.id c =? commentId) _);
    split; reflexivity.
Qed.

(** X19. The like handler keeps the like records and the counters in step:
    if no user has two likes on one comment and every comment's [likes] is
    the number of its like rows, the same holds after a like or an unlike. *)
Theorem X19_likes_stay_consistent (db : DB.t) :
  likes_consistent db ->
  likes_consistent (snd (likeComment now commentId user db)).
Proof.
  intros [Hnd Hcount]. unfold likes_consistent.
  destruct (DB.first mine (DB.comment_likes db)) as [existing|] eqn:Hfind.
  - unfold likeComment. rewrite Hfind.
    cbn [snd DB.with_likes DB.with_comments DB.comments DB.comment_likes].
    split; [by apply NoDup_map_filter|].
    unfold DB.update at 1. apply Forall_fmap.
    eapply Forall_impl; [exact Hcount|]. intros c Hc. cbn [compose].
    destruct (Z.eqb_spec (Comment.id c) commentId) as [Hid|Hid].
    + cbn [Comment.set_likes Comment.likes Comment.id]. rewrite Hc, Hid.
      rewrite (delete_one _ _ Hnd Hfind). lia.
    + rewrite Hc. unfold DB.delete. rewrite filter_filter_implied; [reflexivity|].
      intros l Hl. apply Z.eqb_eq in Hl.
      destruct (Z.eqb_spec (Like.comment_id l) commentId); [congruence|].
      reflexivity.
  - destruct (like_tables db Hfind) as [Hlikes Hcomments].
    rewrite Hlikes, Hcomments. split.
    + rewrite List.map_app. apply NoDup_app. split; [exact Hnd|].
      split; [|apply NoDup_singleton].
      intros x Hx Hin. cbn [List.map Like.comment_id Like.user_id] in Hin.
      apply list_elem_of_singleton in Hin. subst x.
      by apply (not_mine_not_in _ Hfind).
    + unfold DB.update. apply Forall_fmap.
      eapply Forall_impl; [exact Hcount|]. intros c Hc. cbn [compose].
      rewrite List.filter_app, length_app.
      cbn [List.filter Like.comment_id].
      destruct (Z.eqb_spec (Comment.id c) commentId) as [Hid|Hid].
      * cbn [Comment.set_likes Comment.likes Comment.id]. rewrite Hc, Hid.
        rewrite Z.eqb_refl. cbn [length]. lia.
      * rewrite Hc. destruct (Z.eqb_spec commentId (Comment.id c)); [congruence|].
        cbn [length]. lia.
Qed.

End LikeCounter.

Section FlagCounter.
Variables (now : Z) (commentId : Z) (user : User.t) (reason : string).

#[local] Abbreviation flag_mine :=
  (fun f : Flag.t =>
     (Flag.comment_id f =? commentId) && (Flag.user_id f =? User.id user)).

Lemma flag_tables (db : DB.t) :
  DB.first flag_mine (DB.comment_flags db) = None ->
  DB.comment_flags (snd (flagComment now commentId user reason db))
  = DB.comment_flags db ++ [Flag.mk commentId (User.id user) reason now]
  /\ List.map (fun c => (Comment.id c, Comment.flags c))
       (DB.comments (snd (flagComment now commentId user reason db)))
     = List.map (fun c => (Comment.id c, Comment.flags c))
         (DB.update (fun c => Comment.id c =? commentId)
            (Comment.set_flags (fun n => n + 1)) (DB.comments db)).
Proof.
  intros Hfind. unfold flagComment. cbv zeta. rewrite Hfind.
  destruct (DB.first (fun c => Comment.id c =? commentId) _) as [c|];
    [|split; reflexivity].
  destruct (3 <=? Comment.flags c); split; try reflexivity.
  cbn [snd DB.with_comments DB.with_flags DB.comments].
  by rewrite map_update.
Qed.

(** X20. The flag handler keeps the flag records and the counters in step:
    if no user has two flags on one comment and every comment's [flags] is
    the number of its flag rows, the same holds after a flag, accepted or
    rejected. *)
Theorem X20_flags_stay_consistent (db : DB.t) :
  flags_consistent db ->
  flags_consistent (snd (flagComment now commentId user reason db)).
Proof.
  intros [Hnd Hcount]. unfold flags_consistent.
  destruct (DB.first flag_mine (DB.comment_flags db)) as [existing|] eqn:Hfind.
  { unfold flagComment. cbv zeta. rewrite Hfind. by split. }
  destruct (flag_tables db Hfind) as [Hflags Hcomments]. rewrite Hflags. split.
  - rewrite List.map_app. apply NoDup_app. split; [exact Hnd|].
    split; [|apply NoDup_singleton].
    intros x Hx Hin. cbn [List.map Flag.comment_id Flag.user_id] in Hin.
    apply list_elem_of_singleton in Hin. subst x.
    apply list_elem_of_fmap in Hx as (f & Hf & Hfin).
    apply list_elem_of_In in Hfin.
    pose proof (find_none _ _ Hfind _ Hfin) as Hfalse. cbv beta in Hfalse.
    injection Hf as Hc Hu. by rewrite <- Hc, <- Hu, !Z.eqb_refl in Hfalse.
  - assert (Forall
              (fun p : Z * Z =>
                 snd p
                 = Z.of_nat
                     (length
                        (List.filter (fun f => Flag.comment_id f =? fst p)
                           (DB.comment_flags db
                            ++ [Flag.mk commentId (User.id user) reason now]))))
              (List.map (fun c => (Comment.id c, Comment.flags c))
                 (DB.comments (snd (flagComment now commentId user reason db)))))
      as Hpairs.
    { rewrite Hcomments. unfold DB.update. rewrite List.map_map.
      apply Forall_fmap. eapply Forall_impl; [exact Hcount|].
      intros c Hc. cbn [compose fst snd].
      rewrite List.filter_app, length_app. cbn [List.filter Flag.comment_id].
      destruct (Z.eqb_spec (Comment.id c) commentId) as [Hid|Hid].
      - cbn [Comment.set_flags Comment.flags Comment.id]. rewrite Hc, Hid.
        rewrite Z.eqb_refl. cbn [length]. lia.
      - rewrite Hc. destruct (Z.eqb_spec commentId (Comment.id c)); [congruence|].
        cbn [length]. lia. }
    apply Forall_fmap in Hpairs. eapply Forall_impl; [exact Hpairs|].
    intros c Hc. exact Hc.
Qed.

End FlagCounter.

Section FlagMore.
Variables (now : Z) (commentId : Z) (db : DB.t) (comment : Comment.t).
Hypothesis Hcomment : comment_of db commentId = Some comment.

(** X21. Once a comment has two or more flags, every accepted flag sets its
    status to pending, whatever the status was: a comment that a moderator
    approved again after three flags is reopened by the fourth. *)
Theorem X21_flag_reopens_again (user : User.t) (reason : string) :
  DB.first
    (fun f => (Flag.comment_id f =? commentId) && (Flag.user_id f =? User.id user))
    (DB.comment_flags db) = None ->
  2 <= Comment.flags comment ->
  status_of (snd (flagComment now commentId user reason db)) commentId
  = Some pending.
Proof.
  intros Hfresh Hflags.
  rewrite (flag_first now commentId user db reason comment Hcomment Hfresh).
  cbn [snd]. unfold status_of.
  rewrite (flagged_comment now commentId user db reason comment Hcomment).
  unfold flaggedComment. cbn [Comment.set_flags Comment.flags].
  by destruct (Z.leb_spec 3 (Comment.flags comment + 1)); [|lia].
Qed.

Lemma fresh_after_flag (user other : User.t) (reason : string) :
  User.id user <> User.id other ->
  DB.first
    (fun f => (Flag.comment_id f =? commentId) && (Flag.user_id f =? User.id other))
    (DB.comment_flags db) = None ->
  DB.first
    (fun f => (Flag.comment_id f =? commentId) && (Flag.user_id f =? User.id other))
    (DB.comment_flags (afterFlag now commentId user reason comment db)) = None.
Proof.
  intros Hne Hfresh. unfold afterFlag. cbn [DB.comment_flags].
  rewrite (first_app_None _ _ _ Hfresh). unfold DB.first.
  cbn [find Flag.comment_id Flag.user_id].
  destruct (Z.eqb_spec (User.id user) (User.id other)); [congruence|].
  by rewrite andb_false_r.
Qed.

End FlagMore.

Section ThreeFlags.
Variables (now : Z) (commentId : Z) (db : DB.t) (comment : Comment.t).
Variables (u1 u2 u3 : User.t) (reason : string).

#[local] Abbreviation unflagged_by u d :=
  (DB.first
     (fun f => (Flag.comment_id f =? commentId) && (Flag.user_id f =? User.id u))
     (DB.comment_flags d) = None).

(** X22. Three different users flag an approved comment that has no flags:
    all three flags are accepted, the comment is still approved after the
    first and the second, and pending with 3 flags after the third. *)
Theorem X22_three_flags_reopen :
  comment_of db commentId = Some comment ->
  Comment.flags comment = 0 ->
  Comment.status comment = approved ->
  User.id u1 <> User.id u2 -> User.id u1 <> User.id u3 ->
  User.id u2 <> User.id u3 ->
  unflagged_by u1 db -> unflagged_by u2 db -> unflagged_by u3 db ->
  let r1 := flagComment now commentId u1 reason db in
  let r2 := flagComment now commentId u2 reason (snd r1) in
  let r3 := flagComment now commentId u3 reason (snd r2) in
  List.map (fun r => code (fst r)) [r1; r2; r3] = [200; 200; 200]
  /\ status_of (snd r1) commentId = Some approved
  /\ status_of (snd r2) commentId = Some approved
  /\ status_of (snd r3) commentId = Some pending
  /\ flags_of (snd r3) commentId = Some 3.
Proof.
  intros Hc Hflags Hstatus H12 H13 H23 Hf1 Hf2 Hf3. cbv zeta.
  pose proof (flagged_comment now commentId u1 db reason comment Hc) as Hc1.
  rewrite (flag_first now commentId u1 db reason comment Hc Hf1). cbn [snd fst].
  set (db1 := afterFlag now commentId u1 reason comment db) in *.
  set (c1 := flaggedComment comment) in *.
  assert (unflagged_by u2 db1) as Hf2'.
  { by apply fresh_after_flag. }
  assert (unflagged_by u3 db1) as Hf3'.
  { by apply fresh_after_flag. }
  pose proof (flagged_comment now commentId u2 db1 reason c1 Hc1) as Hc2.
  rewrite (flag_first now commentId u2 db1 reason c1 Hc1 Hf2'). cbn [snd fst].
  set (db2 := afterFlag now commentId u2 reason c1 db1) in *.
  set (c2 := flaggedComment c1) in *.
  assert (unflagged_by u3 db2) as Hf3''.
  { by apply fresh_after_flag. }
  pose proof (flagged_comment now commentId u3 db2 reason c2 Hc2) as Hc3.
  rewrite (flag_first now commentId u3 db2 reason c2 Hc2 Hf3''). cbn [snd fst].
  unfold status_of, flags_of. rewrite Hc1, Hc2, Hc3.
  subst c2 c1. clear -Hflags Hstatus. destruct comment.
  cbn [Comment.flags Comment.status] in Hflags, Hstatus. subst.
  vm_compute. repeat split.
Qed.

End ThreeFlags.

(** ** Likes and reputation *)

Section Toggles.
Variables (now : Z) (commentId : Z) (user : User.t).

(** X23. Liking and unliking one comment over and over raises the author's
    reputation by 1 each round while the likes count stays where it was: [n]
    rounds by a user who had not liked the comment give the author [n]. *)
Theorem X23_toggling_raises_reputation (n : nat) (db : DB.t)
  (comment : Comment.t) (author : User.t) :
  comment_of db commentId = Some comment ->
  DB.first
    (fun l => (Like.comment_id l =? commentId) && (Like.user_id l =? User.id user))
    (DB.comment_likes db) = None ->
  user_of db (Comment.user_id comment) = Some author ->
  reputation_of (toggles n now commentId user db) (Comment.user_id comment)
  = Some (User.reputation author + Z.of_nat n)
  /\ likes_of (toggles n now commentId user db) commentId
     = Some (Comment.likes comment).
Proof.
  revert db author. induction n as [|n IH]; intros db author Hc Hfresh Hauthor.
  - cbn [toggles]. unfold reputation_of, likes_of. rewrite Hauthor, Hc.
    cbn. split; [f_equal; lia | reflexivity].
  - cbn [toggles].
    rewrite (like_first now commentId user db comment Hc Hfresh). cbn [snd].
    rewrite (like_second now now commentId user db comment Hc Hfresh). cbn [snd].
    destruct (IH (DB.with_users (credit (Comment.user_id comment)) db)
                (User.set_reputation (fun r => r + 1) author))
      as [Hrep Hlikes].
    + exact Hc.
    + exact Hfresh.
    + unfold user_of in *. cbn [DB.with_users DB.users]. unfold credit.
      rewrite first_update by reflexivity. by rewrite Hauthor.
    + split; [|exact Hlikes]. rewrite Hrep.
      cbn [User.set_reputation User.reputation]. f_equal. lia.
Qed.

End Toggles.

(** ** The queue consumer *)

Section QueueFacts.
Variables (env : Env) (net : Network).

Lemma settle_sent (sent : list HttpRequest) (body : QueueBody) :
  exists more,
    snd (settle env net sent body) = sent ++ more /\ (length more <= 1)%nat.
Proof.
  unfold settle, sendWelcomeEmail, sendNewCommentEmail, deliverWebhook, http_fetch.
  destruct body as [[url data signature|to site_name slug author excerpt]|to name|type].
  - cbn [snd]. eexists [_]. split; [reflexivity | cbn [length]; lia].
  - destruct (negb (truthy (RESEND_API_KEY env))); cbn [snd].
    + exists []. rewrite app_nil_r. split; [reflexivity | cbn [length]; lia].
    + eexists [_]. split; [reflexivity | cbn [length]; lia].
  - destruct (negb (truthy (RESEND_API_KEY env))); cbn [snd].
    + exists []. rewrite app_nil_r. split; [reflexivity | cbn [length]; lia].
    + eexists [_]. split; [reflexivity | cbn [length]; lia].
  - cbn [snd]. exists []. rewrite app_nil_r. split; [reflexivity | cbn [length]; lia].
Qed.

Lemma queue_sent (batch : list QueueBody) :
  forall sent : list HttpRequest,
    exists more,
      snd (queue env net batch sent) = sent ++ more
      /\ (length more <= length batch)%nat
      /\ length (fst (queue env net batch sent)) = length batch.
Proof.
  induction batch as [|body batch IH]; intros sent; cbn [queue].
  - exists []. by rewrite app_nil_r.
  - destruct (settle_sent sent body) as (m1 & H1 & Hl1).
    destruct (settle env net sent body) as [settlement sent1]. cbn [snd] in H1.
    destruct (IH sent1) as (m2 & H2 & Hl2 & Hlen).
    destruct (queue env net batch sent1) as [settlements sent2].
    cbn [fst snd] in *. exists (m1 ++ m2). subst sent1 sent2.
    rewrite app_assoc, length_app. cbn [length]. repeat split; lia.
Qed.


(** X25. Without the mail key every e-mail message is acknowledged and no
    call is made: the notices are dropped, not retried. *)
Theorem X25_mail_dropped_without_key (batch : list QueueBody)
  (sent : list HttpRequest) :
  truthy (RESEND_API_KEY env) = false ->
  Forall (fun body => is_mail body = true) batch ->
  queue env net batch sent = (List.map (fun _ => Ack) batch, sent).
Proof.
  intros Hkey. induction 1 as [|body batch Hbody _ IH]; cbn [queue List.map];
    [reflexivity|].
  assert (settle env net sent body = (Ack, sent)) as ->.
  { unfold settle, sendWelcomeEmail, sendNewCommentEmail.
    destruct body as [[url data signature|to site_name slug author excerpt]|to name|type];
      try discriminate Hbody; by rewrite Hkey. }
  by rewrite IH.
Qed.

(** X26. A webhook message is acknowledged exactly when the endpoint answers
    with a status from 200 to 299; on any other status, or when the call
    fails, it is left for a retry. Either way one POST is made, to the URL of
    the message, with its signature and its data. *)
Theorem X26_webhook_ack_iff_ok (sent : list HttpRequest) (url : string)
  (data : WebhookData) (signature : Signature) :
  let result := settle env net sent (Enqueued (WebhookMessage url data signature)) in
  snd result = sent ++ [WebhookPost url signature data]
  /\ (fst result = Ack
      <-> exists status, net (length sent) = Some status /\ 200 <= status <= 299)
  /\ (fst result = Ack \/ fst result = Retry).
Proof.
  cbv zeta. unfold settle, deliverWebhook, http_fetch, response_ok. cbn [fst snd].
  split; [reflexivity|]. destruct (net (length sent)) as [status|].
  - destruct ((200 <=? status) && (status <=? 299)) eqn:Hok.
    + apply andb_true_iff in Hok as [H1 H2].
      apply Z.leb_le in H1. apply Z.leb_le in H2.
      split; [|by left]. split; [|reflexivity].
      intros _. exists status. split; [reflexivity | lia].
    + split; [|by right]. split; [discriminate|].
      intros (s & [= <-] & Hs). apply andb_false_iff in Hok as [H|H];
        apply Z.leb_gt in H; lia.
  - split; [|by right]. split; [discriminate|].
    intros (s & Hs & _). discriminate Hs.
Qed.

End QueueFacts.

Section Delivery.
Variables (env : Env) (net : Network) (now : Z) (req : CommentRequest).
Variables (db : DB.t) (sub : Z) (user : User.t) (site : Site.t).

(** X27. From submission to delivery: for a comment created on a site with
    a webhook URL, the secret being set, the consumer's first call on the
    messages of the submission is a POST to that URL whose data names the
    new comment with its assigned status and whose signature is made from
    that data and the secret; when the endpoint answers 200 to 299 the
    message is acknowledged. *)
Theorem X27_created_comment_delivered (url secret : string) :
  token req = Payload sub ->
  DB.first (fun u => (User.id u =? sub) && negb (User.is_banned u))
    (DB.users db) = Some user ->
  DB.first (fun s => String.eqb (Site.api_key s) (siteKey req)) (DB.sites db)
  = Some site ->
  Site.webhook_url site = Some url -> url <> "" ->
  WEBHOOK_SECRET env = Some secret -> secret <> "" ->
  response_ok (net 0%nat) = true ->
  exists data settlements calls,
    queue env net (List.map Enqueued (snd (postComment env now req db))) []
    = (Ack :: settlements,
       WebhookPost url (DigestBase64 data secret) data :: calls)
    /\ event data = "comment.created"
    /\ comment_id data = DB.comments_seq db + 1
    /\ comment_status data = submittedStatus now req site user
    /\ comment_content data = content req
    /\ created (postComment env now req db)
       = Some (submittedStatus now req site user).
Proof.
  intros Ht Hu Hs Hurl Hurl' Hsecret Hsecret' Hok.
  rewrite (postComment_creates env now req db sub user site Ht Hu Hs).
  cbn [fst snd created body]. unfold webhookMessages.
  assert (truthy (Site.webhook_url site) = true) as ->.
  { rewrite Hurl. cbn [truthy]. by destruct (String.eqb_spec url ""). }
  assert (truthy (WEBHOOK_SECRET env) = true) as ->.
  { rewrite Hsecret. cbn [truthy]. by destruct (String.eqb_spec secret ""). }
  rewrite Hurl, Hsecret. cbn [andb default app List.map queue].
  unfold settle at 1, deliverWebhook, http_fetch. cbn [length app].
  rewrite Hok.
  match goal with
  | |- context [queue env net ?batch ?sent] =>
      destruct (queue_sent env net batch sent) as (more & Hsent & _);
      destruct (queue env net batch sent) as [settlements calls] eqn:Hq
  end.
  cbn [snd] in Hsent. subst calls.
  eexists _, settlements, more. split; [reflexivity|]. repeat split.
Qed.

End Delivery.

(** ** The further properties on the small installation *)


Lemma X14_banned_cannot_submit_witness :
  postComment env0 two_days plain db_banned
  = (json (ErrorBody "User not found or banned") 403, db_banned, []).
Proof.
  apply (X14_banned_cannot_submit env0 two_days plain db_banned 2);
    [reflexivity|].
  vm_compute. repeat constructor; intros H; try reflexivity; discriminate H.
Defined.

Lemma X15_email_notice_witness :
  truthy (RESEND_API_KEY env_mail) = true
  /\ RegExp.units "nice post, thanks" = take 200 (content plain)
  /\ (length (RegExp.units "nice post, thanks") <= 200)%nat
  /\ exists (site : Site.t) (owner : User.t),
       DB.first (fun s => String.eqb (Site.api_key s) (siteKey plain))
         (DB.sites db0) = Some site
       /\ siteOwner (Site.id site)
            (snd (fst (postComment env_mail two_days plain db0))) = Some owner
       /\ User.email_notifications owner = true
       /\ "owner@example.com" = User.email owner.
Proof.
  apply (X15_email_notice env_mail two_days plain db0
           (NewCommentMessage "owner@example.com" "Blog" "hello-world"
              "Newcomer" (RegExp.units "nice post, thanks"))
           "owner@example.com" "Blog" "hello-world" "Newcomer"
           (RegExp.units "nice post, thanks")); [|reflexivity].
  vm_compute. constructor.
Defined.

Lemma X18_comment_ids_kept_witness :
  comment_ids_ok (snd (fst (postComment env0 10 plain db0)))
  /\ comment_ids_ok (snd (likeComment 10 1 newcomer db0))
  /\ comment_ids_ok (snd (flagComment 10 1 newcomer "spam" db0)).
Proof.
  apply (X18_comment_ids_kept 10 1 newcomer db0 env0 plain "spam") .
  split; [apply NoDup_singleton | repeat constructor; discriminate].
Defined.

Lemma X19_likes_stay_consistent_witness :
  likes_consistent (snd (likeComment 20 1 newcomer db_liked)).
Proof.
  apply (X19_likes_stay_consistent 20 1 newcomer db_liked).
  split; [apply NoDup_singleton | repeat constructor].
Defined.

Lemma X20_flags_stay_consistent_witness :
  flags_consistent (snd (flagComment 30 1 newcomer "spam" db_two_flags)).
Proof.
  apply (X20_flags_stay_consistent 30 1 newcomer "spam" db_two_flags).
  split; [|repeat constructor].
  vm_compute. apply NoDup_cons. split; [|apply NoDup_singleton].
  intros Hin. apply list_elem_of_singleton in Hin. discriminate Hin.
Defined.

Lemma X21_flag_reopens_again_witness :
  status_of (snd (flagComment 30 1 newcomer "spam" db_two_flags)) 1
  = Some pending.
Proof.
  apply (X21_flag_reopens_again 30 1 db_two_flags
           (Comment.set_flags (fun _ => 2) welcome) eq_refl newcomer "spam");
    [reflexivity | vm_compute; discriminate].
Defined.

Lemma X22_three_flags_reopen_witness :
  let r1 := flagComment 10 1 owner "spam" db0 in
  let r2 := flagComment 10 1 newcomer "spam" (snd r1) in
  let r3 := flagComment 10 1 regular "spam" (snd r2) in
  List.map (fun r => code (fst r)) [r1; r2; r3] = [200; 200; 200]
  /\ status_of (snd r1) 1 = Some approved
  /\ status_of (snd r2) 1 = Some approved
  /\ status_of (snd r3) 1 = Some pending
  /\ flags_of (snd r3) 1 = Some 3.
Proof.
  apply (X22_three_flags_reopen 10 1 db0 welcome owner newcomer regular "spam");
    try reflexivity; discriminate.
Defined.

Lemma X23_toggling_raises_reputation_witness :
  reputation_of (toggles 3 10 1 newcomer db0) (Comment.user_id welcome)
  = Some (User.reputation regular + Z.of_nat 3)
  /\ likes_of (toggles 3 10 1 newcomer db0) 1 = Some (Comment.likes welcome).
Proof.
  apply (X23_toggling_raises_reputation 10 1 newcomer 3 db0 welcome regular);
    reflexivity.
Defined.

Lemma X25_mail_dropped_without_key_witness :
  queue env0 net_ok
    [WelcomeBody "new@example.com" "Newcomer";
     Enqueued (NewCommentMessage "owner@example.com" "Blog" "hello-world"
                 "Newcomer" (RegExp.units "nice post, thanks"))] []
  = ([Ack; Ack], []).
Proof.
  apply (X25_mail_dropped_without_key env0 net_ok
           [WelcomeBody "new@example.com" "Newcomer";
            Enqueued (NewCommentMessage "owner@example.com" "Blog"
                        "hello-world" "Newcomer"
                        (RegExp.units "nice post, thanks"))] []);
    [reflexivity | repeat constructor].
Defined.

Lemma X27_created_comment_delivered_witness :
  exists data settlements calls,
    queue env0 net_ok
      (List.map Enqueued (snd (postComment env0 two_hours promo db0))) []
    = (Ack :: settlements,
       WebhookPost "https://example.com/hook" (DigestBase64 data "whsec") data
       :: calls)
    /\ event data = "comment.created"
    /\ comment_id data = DB.comments_seq db0 + 1
    /\ comment_status data = submittedStatus two_hours promo blog newcomer
    /\ comment_content data = content promo
    /\ created (postComment env0 two_hours promo db0)
       = Some (submittedStatus two_hours promo blog newcomer).
Proof.
  apply (X27_created_comment_delivered env0 net_ok two_hours promo db0 2
           newcomer blog "https://example.com/hook" "whsec");
    try reflexivity; discriminate.
Defined.
